(** * homework_bot: the polling loop of [homework.py]

    A shallow embedding of [homework.py] and the properties of its polling
    loop: response validation, status messages, the classification of
    failures, the de-duplication of failure notifications and the cursor.

    Python values are the values a decoded JSON body can hold.  Exceptions
    are a class and an argument.  The body of the [while True] loop is a
    program in a small monad that threads the two local variables of [main],
    collects the calls made to the outside (chat, log, sleep) and may raise.
    The outside world (the review API, the chat transport, the clock) is an
    input of every cycle. *)

From Stdlib Require Import String Ascii List ZArith Lia Bool DecimalString.
Import ListNotations.
Open Scope string_scope.
Open Scope Z_scope.
Set Warnings "-register-all".

(** ** Python values *)

(** What [response.json()] can return.  A float is carried by its [repr]
    (it is only ever printed); a dict keeps its items in insertion order,
    with distinct keys in any decoded body, and lookups take the first
    binding of a key. *)
Inductive pyval : Type :=
| PNone
| PBool (b : bool)
| PInt (n : Z)
| PFloat (literal : string)
| PStr (s : string)
| PList (items : list pyval)
| PDict (items : list (string * pyval)).

Definition type_name (v : pyval) : string :=
  match v with
  | PNone => "NoneType"
  | PBool _ => "bool"
  | PInt _ => "int"
  | PFloat _ => "float"
  | PStr _ => "str"
  | PList _ => "list"
  | PDict _ => "dict"
  end.

Definition is_dict (v : pyval) : bool :=
  match v with PDict _ => true | _ => false end.

Definition is_list (v : pyval) : bool :=
  match v with PList _ => true | _ => false end.

(** Hashable values: everything but the two containers. *)
Definition hashable (v : pyval) : bool :=
  match v with PList _ | PDict _ => false | _ => true end.

(** The double quote, as a one-character string. *)
Definition dquote : string := String "034"%char EmptyString.

(** The apostrophe-quoted form of a text. *)
Definition quoted (s : string) : string := "'" ++ s ++ "'".

(** [str(n)] of an int. *)
Definition str_int (n : Z) : string := NilZero.string_of_int (Z.to_int n).

(** [sub in s] on two strings. *)
Definition str_contains (s sub : string) : bool :=
  match String.index 0 sub s with Some _ => true | None => false end.

(** ** Dictionaries with string keys *)

Fixpoint lookup {V : Type} (key : string) (d : list (string * V)) : option V :=
  match d with
  | [] => None
  | (k, v) :: rest => if String.eqb k key then Some v else lookup key rest
  end.

Definition mem {V : Type} (key : string) (d : list (string * V)) : bool :=
  match lookup key d with Some _ => true | None => false end.

(** ** Exceptions *)

(** The exception classes the program can meet.  [ConnectionError] is
    [requests.ConnectionError], [RequestException] any other error of the
    HTTP client (a timeout, a body that is not JSON), [TelegramError] is
    [telegram.error.TelegramError] with its subclasses. *)
Inductive exn_class : Type :=
| Exception
| TypeError
| KeyError
| AttributeError
| UnboundLocalError
| EasyError
| EmptyKeyError
| ConnectionError
| RequestException
| TelegramError.

Definition exn_class_eqb (a b : exn_class) : bool :=
  match a, b with
  | Exception, Exception | TypeError, TypeError | KeyError, KeyError
  | AttributeError, AttributeError | UnboundLocalError, UnboundLocalError
  | EasyError, EasyError | EmptyKeyError, EmptyKeyError
  | ConnectionError, ConnectionError | RequestException, RequestException
  | TelegramError, TelegramError => true
  | _, _ => false
  end.

(** Modelled from the spec: the module [exceptions], which declares
    [EasyError] and [EmptyKeyError], is not among the sources.  The spec
    describes the easy error as a named class of expected missing-field
    conditions with the missing-field error inside it, so [EmptyKeyError]
    is a subclass of [EasyError]; both are ordinary exceptions whose text
    is their argument.  [KeyError] is a builtin and cannot be below a class
    of the program. *)
Definition EasyError_classes : list exn_class := [EasyError; EmptyKeyError].

(** [issubclass(c, base)] for the handlers of the program. *)
Definition issubclass (c base : exn_class) : bool :=
  match base with
  | Exception => true
  | EasyError => existsb (exn_class_eqb c) EasyError_classes
  | RequestException =>
      exn_class_eqb c RequestException || exn_class_eqb c ConnectionError
  | _ => exn_class_eqb c base
  end.

(** An exception: its class and the single argument it was built with. *)
Record exn : Type := mk_exn { exn_cls : exn_class; exn_arg : pyval }.

Definition isinstance (e : exn) (base : exn_class) : bool :=
  issubclass (exn_cls e) base.

Inductive result (A : Type) : Type :=
| Ok (a : A)
| Raise (e : exn).
Arguments Ok {A} a.
Arguments Raise {A} e.

(** [raise c(arg)] with a text as argument. *)
Definition raise {A : Type} (c : exn_class) (arg : string) : result A :=
  Raise (mk_exn c (PStr arg)).

Definition bind_result {A B : Type} (m : result A) (k : A -> result B)
  : result B :=
  match m with
  | Ok a => k a
  | Raise e => Raise e
  end.

Notation "'try!' x <- m ; k" := (bind_result m (fun x => k))
  (at level 10, x name, m at level 100, k at level 200).

(** ** Operators of the language, as the program uses them *)

(** [key in container] with a literal string on the left: a key test on a
    dict, an element test on a list, a substring test on a string, and
    [TypeError] on anything else (message as CPython 3.9 words it). *)
Definition py_in (key : string) (container : pyval) : result bool :=
  match container with
  | PDict d => Ok (mem key d)
  | PList l =>
      Ok (existsb (fun v => match v with
                            | PStr s => String.eqb s key
                            | _ => false
                            end) l)
  | PStr s => Ok (str_contains s key)
  | other =>
      raise TypeError
        ("argument of type " ++ quoted (type_name other) ++ " is not iterable")
  end.

(** [container[key]] with a literal string as index. *)
Definition py_getitem (container : pyval) (key : string) : result pyval :=
  match container with
  | PDict d =>
      match lookup key d with
      | Some v => Ok v
      | None => raise KeyError key
      end
  | PList _ => raise TypeError "list indices must be integers or slices, not str"
  | PStr _ => raise TypeError "string indices must be integers"
  | other =>
      raise TypeError
        (quoted (type_name other) ++ " object is not subscriptable")
  end.

(** [key in table] for a table with string keys and any value as [key]:
    hashing a list or a dict raises, no other value equals a string. *)
Definition table_in {V : Type} (key : pyval) (table : list (string * V))
  : result bool :=
  match key with
  | PStr s => Ok (mem s table)
  | PList _ | PDict _ =>
      raise TypeError ("unhashable type: " ++ quoted (type_name key))
  | _ => Ok false
  end.

(** [table[key]], same conventions. *)
Definition table_getitem (key : pyval) (table : list (string * string))
  : result string :=
  match key with
  | PStr s =>
      match lookup s table with
      | Some v => Ok v
      | None => raise KeyError s
      end
  | PList _ | PDict _ =>
      raise TypeError ("unhashable type: " ++ quoted (type_name key))
  | _ => Raise (mk_exn KeyError key)
  end.

(** [response.get(key, default)]. *)
Definition py_get (response : pyval) (key : string) (default : pyval)
  : result pyval :=
  match response with
  | PDict d =>
      match lookup key d with
      | Some v => Ok v
      | None => Ok default
      end
  | other =>
      raise AttributeError
        (quoted (type_name other) ++ " object has no attribute 'get'")
  end.

(** ** Constants of the module *)

Definition RETRY_TIME : Z := 600.

Definition ENDPOINT : string :=
  "https://practicum.yandex.ru/api/user_api/homework_statuses/".

Definition HOMEWORK_VERDICTS : list (string * string) :=
  [ ("approved", "Работа проверена: ревьюеру всё понравилось. Ура!");
    ("reviewing", "Работа взята на проверку ревьюером.");
    ("rejected", "Работа проверена: у ревьюера есть замечания.") ].

(** The three settings read from the environment; [os.getenv] gives [None]
    for a variable that is not set. *)
Record environ : Type := {
  PRACTICUM_TOKEN : option string;
  TELEGRAM_TOKEN : option string;
  TELEGRAM_CHAT_ID : option string
}.

(** Truth value of what [os.getenv] returned. *)
Definition truthy (v : option string) : bool :=
  match v with
  | Some s => negb (String.eqb s EmptyString)
  | None => false
  end.

Definition check_tokens (env : environ) : bool :=
  forallb truthy [TELEGRAM_TOKEN env; TELEGRAM_CHAT_ID env; PRACTICUM_TOKEN env].

(** ** Response validation *)

Definition check_response (response : pyval) : result (list pyval) :=
  match response with
  | PDict d =>
      match lookup "homeworks" d with
      | None => raise EmptyKeyError "Отсутствует поле homeworks в ответе API"
      | Some homeworks =>
          if negb (mem "current_date" d)
          then raise EmptyKeyError "Отсутствует поле current_date в ответе API"
          else
            match homeworks with
            | PList l => Ok l
            | _ => raise TypeError "Домашки пришли не в виде списка"
            end
      end
  | _ => raise TypeError "Тип ответа API не является словарем"
  end.

(** ** The outside world and the local state of [main] *)

(** What [response.json()] gives for a response: the decoded body, or the
    error of a body that is not JSON. *)
Record http_response : Type := {
  status_code : Z;
  json : result pyval
}.

(** What [requests.get] does: it raises, or it returns a response. *)
Inductive http_outcome : Type :=
| Fails (e : exn)
| Responds (r : http_response).

(** The world during one cycle: the answer of the review API to a query
    with a given [from_date], what the chat transport does with a text
    ([None]: delivered, [Some e]: a [TelegramError] of text [e] is raised),
    and the value of [int(time.time())]. *)
Record world : Type := {
  requests_get : pyval -> http_outcome;
  bot_send_message : string -> option string;
  time_now : Z
}.

Inductive level : Type := DEBUG | INFO | ERROR.

(** The calls the program makes to the outside, in order. *)
Inductive event : Type :=
| BotSend (text : string) (delivered : bool)
| Log (lvl : level) (text : string)
| Sleep (seconds : Z).

(** The local variables of [main] that live across cycles.
    [error_message] is [None] as long as no assignment has bound it. *)
Record locals : Type := {
  current_timestamp : pyval;
  error_message : option string
}.

Record outcome (A : Type) : Type := Outcome {
  final : locals;
  trace : list event;
  value : result A
}.
Arguments Outcome {A} final trace value.
Arguments final {A} o.
Arguments trace {A} o.
Arguments value {A} o.

(** A statement: it runs on the locals, makes calls, and returns or raises. *)
Definition prog (A : Type) : Type := locals -> outcome A.

Definition ret {A : Type} (a : A) : prog A :=
  fun st => Outcome st [] (Ok a).

Definition lift {A : Type} (r : result A) : prog A :=
  fun st => Outcome st [] r.

Definition emit (ev : event) : prog unit :=
  fun st => Outcome st [ev] (Ok tt).

Definition bind {A B : Type} (m : prog A) (k : A -> prog B) : prog B :=
  fun st =>
    let o := m st in
    match value o with
    | Ok a =>
        let o' := k a (final o) in
        Outcome (final o') (trace o ++ trace o') (value o')
    | Raise e => Outcome (final o) (trace o) (Raise e)
    end.

Notation "x <- m ;; k" := (bind m (fun x => k))
  (at level 61, m at next level, right associativity).
Notation "m ;; k" := (bind m (fun _ => k))
  (at level 61, right associativity).

(** [try: body except ...: handler]: [handler e] is [None] when no clause
    matches [e], which then goes on propagating. *)
Definition try_except {A : Type} (body : prog A)
    (handler : exn -> option (prog A)) : prog A :=
  fun st =>
    let o := body st in
    match value o with
    | Ok a => o
    | Raise e =>
        match handler e with
        | Some h =>
            let o' := h (final o) in
            Outcome (final o') (trace o ++ trace o') (value o')
        | None => o
        end
    end.

(** [try: body finally: cleanup]. *)
Definition try_finally {A : Type} (body : prog A) (cleanup : prog unit)
  : prog A :=
  fun st =>
    let o := body st in
    let o' := cleanup (final o) in
    Outcome (final o') (trace o ++ trace o')
      (match value o' with
       | Ok _ => value o
       | Raise e => Raise e
       end).

(** Reading and writing the locals. *)
Definition read_error_message : prog string :=
  fun st =>
    Outcome st []
      (match error_message st with
       | Some s => Ok s
       | None =>
           raise UnboundLocalError
             "local variable 'error_message' referenced before assignment"
       end).

Definition set_current_timestamp (v : pyval) : prog unit :=
  fun st =>
    Outcome {| current_timestamp := v; error_message := error_message st |}
      [] (Ok tt).

Definition set_error_message (s : string) : prog unit :=
  fun st =>
    Outcome {| current_timestamp := current_timestamp st;
               error_message := Some s |}
      [] (Ok tt).

Definition get_current_timestamp : prog pyval :=
  fun st => Outcome st [] (Ok (current_timestamp st)).

(** The texts handed to [bot.send_message], and those that went through. *)
Fixpoint dispatched (t : list event) : list string :=
  match t with
  | [] => []
  | BotSend text _ :: rest => text :: dispatched rest
  | _ :: rest => dispatched rest
  end.

Fixpoint delivered (t : list event) : list string :=
  match t with
  | [] => []
  | BotSend text true :: rest => text :: delivered rest
  | _ :: rest => delivered rest
  end.

(** The table entry for a status, when it has one. *)
Definition verdict_of (status : pyval) : option string :=
  match status with
  | PStr s => lookup s HOMEWORK_VERDICTS
  | _ => None
  end.

(** ** The program *)

Section Program.

(** [repr] of the interpreter.  It is left open: on text it depends on the
    character tables of the interpreter at hand. *)
Variable repr : pyval -> string.

(** [str(v)], which is also what an f-string puts for [{v}]. *)
Definition py_str (v : pyval) : string :=
  match v with
  | PNone => "None"
  | PBool true => "True"
  | PBool false => "False"
  | PInt n => str_int n
  | PFloat literal => literal
  | PStr s => s
  | PList _ | PDict _ => repr v
  end.

(** [str(error)]: the text of the argument, and its [repr] for a
    [KeyError]. *)
Definition str_exn (e : exn) : string :=
  match exn_cls e with
  | KeyError => repr (exn_arg e)
  | _ => py_str (exn_arg e)
  end.

Definition parse_status (homework : pyval) : result string :=
  try! has_name <- py_in "homework_name" homework;
  if negb has_name
  then raise KeyError "Отсутствует поле homework_name в ответе API"
  else
    try! has_status <- py_in "status" homework;
    if negb has_status
    then raise KeyError "Отсутствует поле status в ответе API"
    else
      try! homework_name <- py_getitem homework "homework_name";
      try! homework_status <- py_getitem homework "status";
      try! known <- table_in homework_status HOMEWORK_VERDICTS;
      if negb known
      then raise Exception "Неизвестный статус"
      else
        try! verdict <- table_getitem homework_status HOMEWORK_VERDICTS;
        Ok ("Изменился статус проверки работы " ++ dquote
              ++ py_str homework_name ++ dquote ++ ". " ++ verdict).

(** The call [bot.send_message(TELEGRAM_CHAT_ID, text)] itself. *)
Definition bot_send (w : world) (text : string) : prog unit :=
  match bot_send_message w text with
  | None => emit (BotSend text true)
  | Some err =>
      emit (BotSend text false) ;; lift (raise TelegramError err)
  end.

Definition send_message (w : world) (message : string) : prog unit :=
  try_except
    (bot_send w message ;; emit (Log INFO "Сообщение отправлено"))
    (fun error =>
       if isinstance error TelegramError
       then Some (emit (Log DEBUG
                          ("Ошибка при отправке сообщения " ++ str_exn error)))
       else None).

Definition get_api_answer (w : world) (current_timestamp : pyval)
  : result pyval :=
  let timestamp := current_timestamp in
  match requests_get w timestamp with
  | Fails error =>
      if isinstance error ConnectionError
      then raise Exception "Ошибка при запросе к эндпоинту API-сервиса"
      else Raise error
  | Responds response =>
      if negb (status_code response =? 200)
      then raise Exception
             ("Неожиданный ответ сервера: " ++ str_int (status_code response))
      else json response
  end.

(** The body of the [try] of the loop, lines 111 to 120. *)
Definition attempt (w : world) : prog unit :=
  timestamp <- get_current_timestamp ;;
  response <- lift (get_api_answer w timestamp) ;;
  homeworks <- lift (check_response response) ;;
  match homeworks with
  | homework :: _ =>
      status <- lift (parse_status homework) ;;
      send_message w status
  | [] => emit (Log DEBUG "Новые статусы отсутвуют")
  end ;;
  date <- lift (py_get response "current_date" (PInt (time_now w))) ;;
  set_current_timestamp date ;;
  set_error_message EmptyString.

(** The text of a failure notification. *)
Definition failure_text (error : exn) : string :=
  "Сбой в работе программы: " ++ str_exn error.

(** The two [except] clauses of the loop, in their order. *)
Definition handlers (w : world) (error : exn) : option (prog unit) :=
  if isinstance error EasyError
  then Some (emit (Log ERROR (str_exn error)))
  else if isinstance error Exception
  then Some (
    let message := failure_text error in
    emit (Log ERROR message) ;;
    remembered <- read_error_message ;;
    if negb (String.eqb message remembered)
    then bot_send w message ;; set_error_message message
    else ret tt)
  else None.

(** One turn of the [while True] loop.  A raised value means that the
    exception leaves the loop, and with it [main] and the process. *)
Definition cycle (w : world) : prog unit :=
  try_finally
    (try_except (attempt w) (handlers w))
    (emit (Sleep RETRY_TIME)).

(** The loop, run for as many turns as there are worlds. *)
Fixpoint main_loop (ws : list world) : prog unit :=
  match ws with
  | [] => ret tt
  | w :: rest => cycle w ;; main_loop rest
  end.

(** The locals when the loop is entered, line 107: the cursor is the
    current time, and nothing has bound [error_message] yet. *)
Definition startup (now : Z) : locals :=
  {| current_timestamp := PInt now; error_message := None |}.

(** [main]: [None] when [sys.exit] ends it before the loop. *)
Definition main (env : environ) (now : Z) (ws : list world)
  : option (outcome unit) :=
  if negb (check_tokens env)
  then None
  else Some (main_loop ws (startup now)).

End Program.

(** ** An interpreter to run the program on concrete inputs *)

Definition hex_digit (n : N) : ascii :=
  ascii_of_N (if (n <? 10)%N then 48 + n else 87 + n)%N.

(** One character inside a quoted text: backslash, the quote in use, the
    three named controls and the other ASCII controls are escaped, the
    rest is copied. *)
Definition escape_char (quote c : ascii) : string :=
  let backslash := "092"%char in
  let n := N_of_ascii c in
  if Ascii.eqb c backslash then String backslash (String backslash EmptyString)
  else if Ascii.eqb c quote then String backslash (String quote EmptyString)
  else if Ascii.eqb c "010"%char then String backslash "n"
  else if Ascii.eqb c "013"%char then String backslash "r"
  else if Ascii.eqb c "009"%char then String backslash "t"
  else if ((n <? 32) || (n =? 127))%N
  then String backslash
         (String "x" (String (hex_digit (n / 16))
                        (String (hex_digit (n mod 16)) EmptyString)))
  else String c EmptyString.

Fixpoint escape (quote : ascii) (s : string) : string :=
  match s with
  | EmptyString => EmptyString
  | String c rest => escape_char quote c ++ escape quote rest
  end.

Fixpoint has_char (c : ascii) (s : string) : bool :=
  match s with
  | EmptyString => false
  | String c' rest => Ascii.eqb c c' || has_char c rest
  end.

(** [repr] of a text: apostrophes around it, double quotes when it holds
    an apostrophe and no double quote. *)
Definition repr_str (s : string) : string :=
  let quote :=
    if has_char "'"%char s && negb (has_char "034"%char s)
    then "034"%char else "'"%char in
  String quote (escape quote s ++ String quote EmptyString).

Fixpoint join (sep : string) (parts : list string) : string :=
  match parts with
  | [] => EmptyString
  | [p] => p
  | p :: rest => p ++ sep ++ join sep rest
  end.

(** [repr] as CPython prints the values of a decoded body whose texts hold
    printable characters (outside ASCII every character is taken to be
    one). *)
Fixpoint repr_plain (v : pyval) : string :=
  match v with
  | PNone => "None"
  | PBool true => "True"
  | PBool false => "False"
  | PInt n => str_int n
  | PFloat literal => literal
  | PStr s => repr_str s
  | PList l => "[" ++ join ", " (map repr_plain l) ++ "]"
  | PDict d =>
      "{" ++ join ", "
               (map (fun kv => repr_str (fst kv) ++ ": " ++ repr_plain (snd kv))
                  d)
          ++ "}"
  end.

(** ** Sample worlds *)

(** A review API that answers every query with [r], a chat that delivers
    every text. *)
Definition serving (r : http_response) (now : Z) : world :=
  {| requests_get := fun _ => Responds r;
     bot_send_message := fun _ => None;
     time_now := now |}.

(** The same world with a chat transport that refuses every text. *)
Definition chat_down (w : world) : world :=
  {| requests_get := requests_get w;
     bot_send_message := fun _ => Some "Timed out";
     time_now := time_now w |}.

(** A review API that cannot be reached. *)
Definition unreachable (now : Z) : world :=
  {| requests_get :=
       fun _ => Fails (mk_exn ConnectionError (PStr "Connection refused"));
     bot_send_message := fun _ => None;
     time_now := now |}.

Definition http_200 (body : pyval) : http_response :=
  {| status_code := 200; json := Ok body |}.

Definition http_500 : http_response :=
  {| status_code := 500;
     json := raise RequestException
               "Expecting value: line 1 column 1 (char 0)" |}.

(** The response of the spec's first example. *)
Definition body_hw1_approved : pyval :=
  PDict [ ("homeworks",
           PList [ PDict [ ("homework_name", PStr "hw1");
                           ("status", PStr "approved") ] ]);
          ("current_date", PInt 1700000000) ].

(** No new status. *)
Definition body_empty : pyval :=
  PDict [ ("homeworks", PList []); ("current_date", PInt 1700000100) ].

(** A first record without its name. *)
Definition body_nameless : pyval :=
  PDict [ ("homeworks", PList [ PDict [ ("status", PStr "approved") ] ]);
          ("current_date", PInt 1700000200) ].

(** A first record with a status outside the table, and a date that is a
    text. *)
Definition body_unknown_status : pyval :=
  PDict [ ("homeworks",
           PList [ PDict [ ("homework_name", PStr "hw1");
                           ("status", PStr "lost") ] ]);
          ("current_date", PStr "tomorrow") ].

(** No new status, and a date that is a text. *)
Definition body_text_date : pyval :=
  PDict [ ("homeworks", PList []); ("current_date", PStr "tomorrow") ].

Definition all_set : environ :=
  {| PRACTICUM_TOKEN := Some "practicum";
     TELEGRAM_TOKEN := Some "telegram";
     TELEGRAM_CHAT_ID := Some "42" |}.

(** The locals after a cycle that went through. *)
Definition after_success (cursor : pyval) : locals :=
  {| current_timestamp := cursor; error_message := Some EmptyString |}.

Definition text_500 : string :=
  "Сбой в работе программы: Неожиданный ответ сервера: 500".

(** The locals once the failure of [http_500] has been notified. *)
Definition after_500 (cursor : pyval) : locals :=
  {| current_timestamp := cursor; error_message := Some text_500 |}.

(** What [get_api_answer] raises on [http_500]. *)
Definition error_500 : exn :=
  mk_exn Exception (PStr "Неожиданный ответ сервера: 500").

(** What [get_api_answer] raises when the API cannot be reached. *)
Definition error_unreachable : exn :=
  mk_exn Exception (PStr "Ошибка при запросе к эндпоинту API-сервиса").

Definition text_unreachable : string :=
  "Сбой в работе программы: Ошибка при запросе к эндпоинту API-сервиса".

(** The status text of the spec's first example. *)
Definition text_hw1_approved : string :=
  "Изменился статус проверки работы " ++ dquote ++ "hw1" ++ dquote
    ++ ". Работа проверена: ревьюеру всё понравилось. Ура!".

(** The notification that a first record without its name leads to. *)
Definition text_nameless : string :=
  "Сбой в работе программы: "
    ++ quoted "Отсутствует поле homework_name в ответе API".

Definition unbound_error_message : exn :=
  mk_exn UnboundLocalError
    (PStr "local variable 'error_message' referenced before assignment").

(** ** What is read off a trace, and more sample data *)

(** The pauses of a trace, in seconds. *)
Fixpoint slept (t : list event) : list Z :=
  match t with
  | [] => []
  | Sleep seconds :: rest => seconds :: slept rest
  | _ :: rest => slept rest
  end.

(** A setting that [os.getenv] did not find, or found empty. *)
Definition unset (v : option string) : Prop :=
  v = None \/ v = Some EmptyString.

(** The same world with another clock. *)
Definition at_time (now : Z) (w : world) : world :=
  {| requests_get := requests_get w;
     bot_send_message := bot_send_message w;
     time_now := now |}.

(** An HTTP client that gives up after waiting. *)
Definition timing_out (now : Z) : world :=
  {| requests_get :=
       fun _ => Fails (mk_exn RequestException (PStr "Read timed out."));
     bot_send_message := fun _ => None;
     time_now := now |}.

(** A response with a given status and a body that is not JSON. *)
Definition http_status (code : Z) : http_response :=
  {| status_code := code;
     json := raise RequestException
               "Expecting value: line 1 column 1 (char 0)" |}.

(** Two records, the first one approved. *)
Definition body_two_records : pyval :=
  PDict [ ("homeworks",
           PList [ PDict [ ("homework_name", PStr "hw1");
                           ("status", PStr "approved") ];
                   PDict [ ("homework_name", PStr "hw0");
                           ("status", PStr "rejected") ] ]);
          ("current_date", PInt 1700000000) ].

(** A settings record without the chat. *)
Definition chat_unset : environ :=
  {| PRACTICUM_TOKEN := Some "practicum";
     TELEGRAM_TOKEN := Some "telegram";
     TELEGRAM_CHAT_ID := Some EmptyString |}.

(** * Properties *)

(** ** Dictionaries and texts *)

Lemma mem_true_iff {V : Type} (key : string) (d : list (string * V)) :
  mem key d = true <-> exists v, lookup key d = Some v.
Proof.
  unfold mem. destruct (lookup key d) as [v|].
  - split; [intros _; now exists v | reflexivity].
  - split; [discriminate | intros [v Hv]; discriminate].
Qed.

Lemma mem_false_iff {V : Type} (key : string) (d : list (string * V)) :
  mem key d = false <-> lookup key d = None.
Proof.
  unfold mem. destruct (lookup key d); split; congruence.
Qed.

Lemma substring_skip (p s : string) :
  substring (String.length p) (String.length s) (p ++ s) = s.
Proof.
  induction p as [|c p IH]; simpl.
  - induction s as [|c s IHs]; simpl; [reflexivity | now rewrite IHs].
  - exact IH.
Qed.

Lemma str_contains_suffix (p s : string) : str_contains (p ++ s) s = true.
Proof.
  unfold str_contains.
  destruct (String.index 0 s (p ++ s)) as [n|] eqn:Hi; [reflexivity|].
  destruct s as [|c s].
  - destruct (p ++ EmptyString); simpl in Hi; discriminate.
  - exfalso.
    apply (index_correct3 0 (String.length p) _ _ Hi);
      [discriminate | apply Nat.le_0_l | apply substring_skip].
Qed.

(** ** Response validation *)

Lemma check_response_returns (response : pyval) (l : list pyval) :
  check_response response = Ok l <->
  exists d, response = PDict d
            /\ lookup "homeworks" d = Some (PList l)
            /\ mem "current_date" d = true.
Proof.
  split.
  - destruct response as [| | | | | |d]; try discriminate.
    unfold check_response.
    destruct (lookup "homeworks" d) as [hw|] eqn:Hhw; [|discriminate].
    destruct (mem "current_date" d) eqn:Hcd; [|discriminate].
    destruct hw; try discriminate.
    intros [= ->]. now exists d.
  - intros (d & -> & Hhw & Hcd). unfold check_response.
    now rewrite Hhw, Hcd.
Qed.

Lemma py_get_checked (response : pyval) (l : list pyval) (default : pyval) :
  check_response response = Ok l ->
  exists d date, response = PDict d
                 /\ lookup "current_date" d = Some date
                 /\ py_get response "current_date" default = Ok date.
Proof.
  intros H. apply check_response_returns in H as (d & -> & _ & Hcd).
  apply mem_true_iff in Hcd as [date Hdate].
  exists d, date. unfold py_get. now rewrite Hdate.
Qed.

Section Properties.

Variable repr : pyval -> string.

(** ** Sending *)

(** [send_message] hands the text to the chat once, leaves the locals
    alone and never raises. *)
Lemma send_message_contained (w : world) (message : string) (st : locals) :
  final (send_message repr w message st) = st
  /\ value (send_message repr w message st) = Ok tt
  /\ dispatched (trace (send_message repr w message st)) = [message].
Proof.
  unfold send_message, try_except, bot_send, bind.
  destruct (bot_send_message w message); simpl; auto.
Qed.

(** ** The body of the [try] *)

(** A body that raises has changed no local and made no call. *)
Lemma attempt_raises (w : world) (st : locals) (e : exn) :
  value (attempt repr w st) = Raise e ->
  attempt repr w st = Outcome st [] (Raise e).
Proof.
  unfold attempt, bind, lift, get_current_timestamp; simpl.
  destruct (get_api_answer w (current_timestamp st)) as [response|e1];
    simpl; [|now intros [= ->]].
  destruct (check_response response) as [homeworks|e1] eqn:Hcheck;
    simpl; [|now intros [= ->]].
  destruct (py_get_checked response homeworks (PInt (time_now w)) Hcheck)
    as (d & date & _ & _ & Hget).
  destruct homeworks as [|homework rest]; simpl.
  - rewrite Hget; simpl. discriminate.
  - destruct (parse_status repr homework) as [status|e1]; simpl;
      [|now intros [= ->]].
    destruct (send_message_contained w status st) as (Hf & Hv & _).
    rewrite Hv, Hf; simpl. rewrite Hget; simpl. discriminate.
Qed.

(** A body that returns has read a validated response, taken its date as
    the cursor and emptied the remembered failure text. *)
Lemma attempt_returns (w : world) (st : locals) :
  value (attempt repr w st) = Ok tt ->
  exists d homeworks date,
    get_api_answer w (current_timestamp st) = Ok (PDict d)
    /\ check_response (PDict d) = Ok homeworks
    /\ lookup "current_date" d = Some date
    /\ final (attempt repr w st) = after_success date.
Proof.
  unfold attempt, bind, lift, get_current_timestamp; simpl.
  destruct (get_api_answer w (current_timestamp st)) as [response|e1];
    simpl; [|discriminate].
  destruct (check_response response) as [homeworks|e1] eqn:Hcheck;
    simpl; [|discriminate].
  destruct (py_get_checked response homeworks (PInt (time_now w)) Hcheck)
    as (d & date & -> & Hdate & Hget).
  intros H. exists d, homeworks, date.
  repeat split; try assumption.
  destruct homeworks as [|homework rest]; simpl in *.
  - rewrite Hget; reflexivity.
  - destruct (parse_status repr homework) as [status|e1]; simpl in *;
      [|discriminate].
    destruct (send_message_contained w status st) as (Hf & Hv & _).
    rewrite Hv in *; simpl in *. rewrite Hf, Hget; reflexivity.
Qed.

(** When the body returns: what decides it. *)
Lemma attempt_succeeds (w : world) (st : locals) (d : list (string * pyval))
    (homeworks : list pyval) :
  get_api_answer w (current_timestamp st) = Ok (PDict d) ->
  check_response (PDict d) = Ok homeworks ->
  match homeworks with
  | [] => True
  | homework :: _ => exists status, parse_status repr homework = Ok status
  end ->
  value (attempt repr w st) = Ok tt.
Proof.
  intros Hapi Hcheck Hfirst.
  destruct (py_get_checked _ _ (PInt (time_now w)) Hcheck)
    as (d' & date & _ & _ & Hget).
  unfold attempt, bind, lift, get_current_timestamp; cbn [value final trace].
  rewrite Hapi; cbn [value final trace]. rewrite Hcheck; cbn [value final trace].
  destruct homeworks as [|homework rest]; cbn [value final trace].
  - rewrite Hget; reflexivity.
  - destruct Hfirst as [status ->]; cbn [value final trace].
    destruct (send_message_contained w status st) as (Hf & Hv & _).
    rewrite Hv; cbn [value final trace]. rewrite Hget; reflexivity.
Qed.

(** ** One cycle, case by case *)

Lemma cycle_of_success (w : world) (st : locals) :
  value (attempt repr w st) = Ok tt ->
  cycle repr w st =
  Outcome (final (attempt repr w st))
    (trace (attempt repr w st) ++ [Sleep RETRY_TIME]) (Ok tt).
Proof.
  intros H. unfold cycle, try_finally, try_except, emit.
  rewrite H; cbn [value final trace]. now rewrite H.
Qed.

Lemma cycle_of_easy_error (w : world) (st : locals) (e : exn) :
  value (attempt repr w st) = Raise e ->
  isinstance e EasyError = true ->
  cycle repr w st =
  Outcome st [Log ERROR (str_exn repr e); Sleep RETRY_TIME] (Ok tt).
Proof.
  intros H Heasy. apply attempt_raises in H.
  unfold cycle, try_finally, try_except, handlers.
  rewrite H; cbn [value final trace]. rewrite Heasy. reflexivity.
Qed.

(** The remembered text was never bound: the comparison raises. *)
Lemma cycle_of_failure_unbound (w : world) (st : locals) (e : exn) :
  value (attempt repr w st) = Raise e ->
  isinstance e EasyError = false ->
  error_message st = None ->
  cycle repr w st =
  Outcome st [Log ERROR (failure_text repr e); Sleep RETRY_TIME]
    (raise UnboundLocalError
       "local variable 'error_message' referenced before assignment").
Proof.
  intros H Heasy Hnone. apply attempt_raises in H.
  unfold cycle, try_finally, try_except, handlers.
  rewrite H; cbn [value final trace]. rewrite Heasy.
  change (isinstance e Exception) with true.
  unfold bind, read_error_message, emit; cbn [value final trace].
  rewrite Hnone. reflexivity.
Qed.

(** The same text as the remembered one: nothing is sent. *)
Lemma cycle_of_failure_repeated (w : world) (st : locals) (e : exn) :
  value (attempt repr w st) = Raise e ->
  isinstance e EasyError = false ->
  error_message st = Some (failure_text repr e) ->
  cycle repr w st =
  Outcome st [Log ERROR (failure_text repr e); Sleep RETRY_TIME] (Ok tt).
Proof.
  intros H Heasy Hsame. apply attempt_raises in H.
  unfold cycle, try_finally, try_except, handlers.
  rewrite H; cbn [value final trace]. rewrite Heasy.
  change (isinstance e Exception) with true.
  unfold bind, read_error_message, emit; cbn [value final trace].
  rewrite Hsame; cbn [value final trace].
  rewrite String.eqb_refl. reflexivity.
Qed.

(** Another text, and a chat that takes it: sent and remembered. *)
Lemma cycle_of_failure_sent (w : world) (st : locals) (e : exn)
    (remembered : string) :
  value (attempt repr w st) = Raise e ->
  isinstance e EasyError = false ->
  error_message st = Some remembered ->
  remembered <> failure_text repr e ->
  bot_send_message w (failure_text repr e) = None ->
  cycle repr w st =
  Outcome {| current_timestamp := current_timestamp st;
             error_message := Some (failure_text repr e) |}
    [Log ERROR (failure_text repr e); BotSend (failure_text repr e) true;
     Sleep RETRY_TIME]
    (Ok tt).
Proof.
  intros H Heasy Hrem Hnew Hchat. apply attempt_raises in H.
  unfold cycle, try_finally, try_except, handlers.
  rewrite H; cbn [value final trace]. rewrite Heasy.
  change (isinstance e Exception) with true.
  unfold bind, read_error_message, emit; cbn [value final trace].
  rewrite Hrem; cbn [value final trace].
  destruct (String.eqb_spec (failure_text repr e) remembered) as [Heq|_];
    [now subst remembered|].
  unfold bot_send. rewrite Hchat. reflexivity.
Qed.

(** Another text, and a chat that refuses it: the error of the transport
    leaves the loop. *)
Lemma cycle_of_failure_undelivered (w : world) (st : locals) (e : exn)
    (remembered err : string) :
  value (attempt repr w st) = Raise e ->
  isinstance e EasyError = false ->
  error_message st = Some remembered ->
  remembered <> failure_text repr e ->
  bot_send_message w (failure_text repr e) = Some err ->
  cycle repr w st =
  Outcome st
    [Log ERROR (failure_text repr e); BotSend (failure_text repr e) false;
     Sleep RETRY_TIME]
    (raise TelegramError err).
Proof.
  intros H Heasy Hrem Hnew Hchat. apply attempt_raises in H.
  unfold cycle, try_finally, try_except, handlers.
  rewrite H; cbn [value final trace]. rewrite Heasy.
  change (isinstance e Exception) with true.
  unfold bind, read_error_message, emit; cbn [value final trace].
  rewrite Hrem; cbn [value final trace].
  destruct (String.eqb_spec (failure_text repr e) remembered) as [Heq|_];
    [now subst remembered|].
  unfold bot_send. rewrite Hchat. reflexivity.
Qed.

(** A failing cycle never moves the cursor, whatever becomes of it. *)
Lemma cycle_failure_keeps_cursor (w : world) (st : locals) (e : exn) :
  value (attempt repr w st) = Raise e ->
  current_timestamp (final (cycle repr w st)) = current_timestamp st.
Proof.
  intros H. apply attempt_raises in H.
  unfold cycle, try_finally, try_except, handlers.
  rewrite H; cbn [value final trace].
  destruct (isinstance e EasyError); [reflexivity|].
  change (isinstance e Exception) with true.
  unfold bind, read_error_message, emit, bot_send; cbn [value final trace].
  destruct (error_message st) as [remembered|]; cbn [value final trace];
    [|reflexivity].
  destruct (String.eqb (failure_text repr e) remembered);
    cbn [negb value final trace]; [reflexivity|].
  destruct (bot_send_message w (failure_text repr e)); reflexivity.
Qed.

(** A failing cycle that the loop survives: the text is remembered at its
    end, and it was sent exactly when it was not the remembered one. *)
Lemma cycle_failure_survived (w : world) (st : locals) (e : exn) :
  value (attempt repr w st) = Raise e ->
  isinstance e EasyError = false ->
  value (cycle repr w st) = Ok tt ->
  error_message (final (cycle repr w st)) = Some (failure_text repr e)
  /\ ((error_message st = Some (failure_text repr e)
       /\ trace (cycle repr w st)
          = [Log ERROR (failure_text repr e); Sleep RETRY_TIME])
      \/ (error_message st <> Some (failure_text repr e)
          /\ trace (cycle repr w st)
             = [Log ERROR (failure_text repr e);
                BotSend (failure_text repr e) true; Sleep RETRY_TIME])).
Proof.
  intros H Heasy Hlives.
  destruct (error_message st) as [remembered|] eqn:Hrem.
  - destruct (string_dec remembered (failure_text repr e)) as [->|Hnew].
    + rewrite (cycle_of_failure_repeated w st e H Heasy Hrem).
      split; [exact Hrem | left; split; reflexivity].
    + destruct (bot_send_message w (failure_text repr e)) as [err|] eqn:Hchat.
      * rewrite (cycle_of_failure_undelivered w st e _ err H Heasy Hrem Hnew
                   Hchat) in Hlives.
        discriminate.
      * rewrite (cycle_of_failure_sent w st e _ H Heasy Hrem Hnew Hchat).
        split; [reflexivity | right; split; [congruence | reflexivity]].
  - rewrite (cycle_of_failure_unbound w st e H Heasy Hrem) in Hlives.
    discriminate.
Qed.

Lemma failure_text_not_empty (e : exn) : EmptyString <> failure_text repr e.
Proof. unfold failure_text; simpl; discriminate. Qed.

(** A response that lacks homeworks or current_date: the error of
    [check_response] is in the easy class, the cycle logs it and sends
    nothing. *)
Lemma missing_response_field_is_swallowed (w : world) (st : locals)
    (d : list (string * pyval)) :
  get_api_answer w (current_timestamp st) = Ok (PDict d) ->
  mem "homeworks" d = false \/ mem "current_date" d = false ->
  exists text,
    cycle repr w st = Outcome st [Log ERROR text; Sleep RETRY_TIME] (Ok tt).
Proof.
  intros Hapi Hmiss.
  assert (Hraise : exists text,
             check_response (PDict d) = raise EmptyKeyError text).
  { unfold check_response, mem in *.
    destruct (lookup "homeworks" d) as [hw|]; [|eexists; reflexivity].
    destruct Hmiss as [Hmiss|Hmiss]; [discriminate|].
    destruct (lookup "current_date" d); [discriminate|].
    eexists; reflexivity. }
  destruct Hraise as [text Hraise]. exists text.
  apply (cycle_of_easy_error w st (mk_exn EmptyKeyError (PStr text)));
    [|reflexivity].
  unfold attempt, bind, lift, get_current_timestamp; cbn [value final trace].
  rewrite Hapi; cbn [value final trace]. rewrite Hraise. reflexivity.
Qed.

(** A record that lacks one of its two keys: [parse_status] raises the
    builtin [KeyError], which no clause for the easy class catches. *)
Lemma parse_status_missing_field (d : list (string * pyval)) :
  (mem "homework_name" d = false ->
   parse_status repr (PDict d)
   = raise KeyError "Отсутствует поле homework_name в ответе API")
  /\ (mem "homework_name" d = true ->
      mem "status" d = false ->
      parse_status repr (PDict d)
      = raise KeyError "Отсутствует поле status в ответе API")
  /\ issubclass KeyError EasyError = false.
Proof.
  unfold parse_status, py_in, bind_result. repeat split.
  - intros ->. reflexivity.
  - intros -> ->. reflexivity.
Qed.

(** Once a cycle lets an exception out, the loop is over: the later
    cycles never run. *)
Lemma main_loop_stops (w : world) (ws : list world) (st : locals) (e : exn) :
  value (cycle repr w st) = Raise e ->
  main_loop repr (w :: ws) st = cycle repr w st.
Proof.
  intros H. cbn [main_loop]. unfold bind. rewrite H.
  destruct (cycle repr w st) as [f t v]. cbn [value] in H. subst v.
  reflexivity.
Qed.

(** ** The claims that hold for every interpreter *)

(** C1 (as amended).  Take two consecutive cycles that both fail outside
    the easy class and that the loop survives.  When their failure texts
    are identical, the second cycle sends nothing; across the two cycles
    exactly one notification is sent when the text remembered before the
    first cycle differs from it, and none when that text is already the
    remembered one.  When the second text differs from the first, the
    second cycle sends its notification. *)
Theorem C1_consecutive_failures (w1 w2 : world) (st : locals) (e1 e2 : exn) :
  value (attempt repr w1 st) = Raise e1 ->
  isinstance e1 EasyError = false ->
  value (cycle repr w1 st) = Ok tt ->
  value (attempt repr w2 (final (cycle repr w1 st))) = Raise e2 ->
  isinstance e2 EasyError = false ->
  value (cycle repr w2 (final (cycle repr w1 st))) = Ok tt ->
  (failure_text repr e1 = failure_text repr e2 ->
     dispatched (trace (cycle repr w2 (final (cycle repr w1 st)))) = []
     /\ (error_message st <> Some (failure_text repr e1) ->
         delivered (trace (cycle repr w1 st)
                      ++ trace (cycle repr w2 (final (cycle repr w1 st))))
         = [failure_text repr e1])
     /\ (error_message st = Some (failure_text repr e1) ->
         dispatched (trace (cycle repr w1 st)
                       ++ trace (cycle repr w2 (final (cycle repr w1 st))))
         = []))
  /\ (failure_text repr e1 <> failure_text repr e2 ->
      delivered (trace (cycle repr w2 (final (cycle repr w1 st))))
      = [failure_text repr e2]).
Proof.
  intros H1 Heasy1 Hlives1 H2 Heasy2 Hlives2.
  destruct (cycle_failure_survived w1 st e1 H1 Heasy1 Hlives1)
    as [Hrem1 Hfirst].
  destruct (cycle_failure_survived w2 _ e2 H2 Heasy2 Hlives2)
    as [_ Hsecond].
  rewrite Hrem1 in Hsecond.
  split.
  - intros Hsame.
    destruct Hsecond as [[_ Ht2]|[Hdiff _]]; [|congruence].
    rewrite Ht2. split; [reflexivity|]. split.
    + intros Hnew. destruct Hfirst as [[Hold _]|[_ Ht1]]; [congruence|].
      rewrite Ht1. reflexivity.
    + intros Hold. destruct Hfirst as [[_ Ht1]|[Hnew _]]; [|congruence].
      rewrite Ht1. reflexivity.
  - intros Hdiff.
    destruct Hsecond as [[Hsame _]|[_ Ht2]]; [congruence|].
    rewrite Ht2. reflexivity.
Qed.

(** C3 (as amended).  For a record that holds the keys homework_name and
    status:
    when the status has an entry in the table of verdicts, [parse_status]
    returns the text made of the fixed opening, the name between double
    quotes, a full stop and that entry; when the status (a text, a number,
    a boolean or null) has no entry, it raises the exception of an
    unknown status. *)
Theorem C3_parse_status (d : list (string * pyval)) (name status : pyval) :
  lookup "homework_name" d = Some name ->
  lookup "status" d = Some status ->
  (forall verdict,
      verdict_of status = Some verdict ->
      parse_status repr (PDict d)
      = Ok ("Изменился статус проверки работы " ++ dquote
              ++ py_str repr name ++ dquote ++ ". " ++ verdict))
  /\ (hashable status = true ->
      verdict_of status = None ->
      parse_status repr (PDict d) = raise Exception "Неизвестный статус").
Proof.
  intros Hname Hstatus.
  assert (Hhead : forall k : pyval -> pyval -> result string,
             (try! has_name <- py_in "homework_name" (PDict d);
              if negb has_name
              then raise KeyError "Отсутствует поле homework_name в ответе API"
              else
                try! has_status <- py_in "status" (PDict d);
                if negb has_status
                then raise KeyError "Отсутствует поле status в ответе API"
                else
                  try! homework_name <- py_getitem (PDict d) "homework_name";
                  try! homework_status <- py_getitem (PDict d) "status";
                  k homework_name homework_status)
             = k name status).
  { intros k. unfold py_in, py_getitem, mem, bind_result.
    rewrite Hname, Hstatus. reflexivity. }
  split.
  - intros verdict Hverdict. unfold parse_status. rewrite Hhead.
    destruct status as [| | | |s| |]; try discriminate.
    unfold verdict_of in Hverdict.
    unfold table_in, table_getitem, mem, bind_result.
    rewrite Hverdict. reflexivity.
  - intros Hhash Hnone. unfold parse_status. rewrite Hhead.
    destruct status as [| | | |s| |]; try discriminate; try reflexivity.
    unfold verdict_of in Hnone.
    unfold table_in, mem, bind_result. rewrite Hnone. reflexivity.
Qed.

(** C6.  A cycle whose body goes through leaves the empty text as the
    remembered failure; so whatever failure was notified before it, a
    failure outside the easy class in the next cycle is handed to the chat
    again, also when its text is the one notified earlier. *)
Theorem C6_success_resets (w1 : world) (st1 : locals) :
  value (attempt repr w1 st1) = Ok tt ->
  error_message (final (cycle repr w1 st1)) = Some EmptyString
  /\ forall (w2 : world) (e : exn),
      value (attempt repr w2 (final (cycle repr w1 st1))) = Raise e ->
      isinstance e EasyError = false ->
      dispatched (trace (cycle repr w2 (final (cycle repr w1 st1))))
      = [failure_text repr e]
      /\ (bot_send_message w2 (failure_text repr e) = None ->
          delivered (trace (cycle repr w2 (final (cycle repr w1 st1))))
          = [failure_text repr e]).
Proof.
  intros Hok.
  destruct (attempt_returns w1 st1 Hok) as (d & hws & date & _ & _ & _ & Hfin).
  rewrite (cycle_of_success w1 st1 Hok); cbn [final]. rewrite Hfin.
  split; [reflexivity|].
  intros w2 e Hfail Heasy.
  pose proof (failure_text_not_empty e) as Hne.
  destruct (bot_send_message w2 (failure_text repr e)) as [err|] eqn:Hchat.
  - rewrite (cycle_of_failure_undelivered w2 _ e EmptyString err Hfail Heasy
               eq_refl Hne Hchat).
    split; [reflexivity | discriminate].
  - rewrite (cycle_of_failure_sent w2 _ e EmptyString Hfail Heasy eq_refl Hne
               Hchat).
    split; [reflexivity | reflexivity].
Qed.

(** C7.  [main] enters the loop with the current time as cursor; a cycle
    whose body goes through sets the cursor to what
    [response.get('current_date', now)] gives on the response it read, the
    date of the response or else the current time; a cycle whose body
    raises leaves the cursor as it was. *)
Theorem C7_cursor :
  (forall env now ws,
      check_tokens env = true ->
      main repr env now ws = Some (main_loop repr ws (startup now))
      /\ current_timestamp (startup now) = PInt now)
  /\ (forall w st,
         value (attempt repr w st) = Ok tt ->
         exists d,
           get_api_answer w (current_timestamp st) = Ok (PDict d)
           /\ current_timestamp (final (cycle repr w st))
              = match lookup "current_date" d with
                | Some date => date
                | None => PInt (time_now w)
                end)
  /\ (forall w st e,
         value (attempt repr w st) = Raise e ->
         current_timestamp (final (cycle repr w st)) = current_timestamp st).
Proof.
  split; [|split].
  - intros env now ws Henv. unfold main. rewrite Henv. split; reflexivity.
  - intros w st Hok.
    destruct (attempt_returns w st Hok) as (d & hws & date & Hapi & _ & Hd & Hfin).
    exists d. split; [exact Hapi|].
    rewrite (cycle_of_success w st Hok); cbn [final].
    rewrite Hfin, Hd. reflexivity.
  - intros w st e. apply cycle_failure_keeps_cursor.
Qed.

(** C10 (as amended).  Validation looks at the presence of current_date
    only: a mapping whose homeworks is a list and that binds current_date
    to any value passes it; and when the list is empty or its first record
    gives a status text, the cycle goes through and that value is the next
    cursor, as it stands. *)
Theorem C10_current_date_unexamined (d : list (string * pyval))
    (homeworks : list pyval) (date : pyval) :
  lookup "homeworks" d = Some (PList homeworks) ->
  lookup "current_date" d = Some date ->
  check_response (PDict d) = Ok homeworks
  /\ forall (w : world) (st : locals),
      get_api_answer w (current_timestamp st) = Ok (PDict d) ->
      match homeworks with
      | [] => True
      | homework :: _ => exists status, parse_status repr homework = Ok status
      end ->
      value (cycle repr w st) = Ok tt
      /\ current_timestamp (final (cycle repr w st)) = date.
Proof.
  intros Hhw Hdate.
  assert (Hcheck : check_response (PDict d) = Ok homeworks).
  { apply check_response_returns. exists d.
    repeat split; [exact Hhw | apply mem_true_iff; now exists date]. }
  split; [exact Hcheck|].
  intros w st Hapi Hfirst.
  pose proof (attempt_succeeds w st d homeworks Hapi Hcheck Hfirst) as Hok.
  destruct (attempt_returns w st Hok) as (d' & hws & date' & Hapi' & _ & Hd' & Hfin).
  rewrite (cycle_of_success w st Hok); cbn [final value].
  split; [reflexivity|].
  rewrite Hfin. rewrite Hapi in Hapi'. injection Hapi' as <-.
  rewrite Hdate in Hd'. injection Hd' as <-. reflexivity.
Qed.

End Properties.

(** ** The claims that do not depend on the interpreter *)

(** C4.  [check_response] raises the type error of a response that is no
    mapping exactly on the values that are not dicts; it raises a
    missing-field error exactly on the dicts that lack homeworks or
    current_date; it raises the type error of homeworks that are no list
    exactly on the dicts that hold both keys with something else than a
    list under homeworks; and it returns a list exactly when the response is
    a dict with both keys whose homeworks is that very list. *)
Theorem C4_check_response (response : pyval) :
  (check_response response
   = raise TypeError "Тип ответа API не является словарем"
   <-> is_dict response = false)
  /\ ((exists text, check_response response = raise EmptyKeyError text)
      <-> exists d, response = PDict d
                    /\ (mem "homeworks" d = false
                        \/ mem "current_date" d = false))
  /\ (check_response response
      = raise TypeError "Домашки пришли не в виде списка"
      <-> exists d homeworks,
            response = PDict d
            /\ lookup "homeworks" d = Some homeworks
            /\ mem "current_date" d = true
            /\ is_list homeworks = false)
  /\ (forall l,
         check_response response = Ok l
         <-> exists d, response = PDict d
                       /\ lookup "homeworks" d = Some (PList l)
                       /\ mem "current_date" d = true).
Proof.
  split; [|split; [|split]].
  - destruct response as [| | | | | |d]; simpl;
      try (split; reflexivity).
    split; [|discriminate].
    destruct (lookup "homeworks" d) as [hw|]; [|discriminate].
    destruct (mem "current_date" d); [|discriminate].
    destruct hw; discriminate.
  - split.
    + intros [text H].
      destruct response as [| | | | | |d]; try discriminate.
      exists d. split; [reflexivity|].
      unfold check_response, mem in *.
      destruct (lookup "homeworks" d) as [hw|]; [|now left].
      destruct (lookup "current_date" d); [|now right].
      destruct hw; discriminate.
    + intros (d & -> & Hmiss). unfold check_response, mem in *.
      destruct (lookup "homeworks" d) as [hw|]; [|eexists; reflexivity].
      destruct Hmiss as [Hmiss|Hmiss]; [discriminate|].
      destruct (lookup "current_date" d); [discriminate|].
      eexists; reflexivity.
  - split.
    + destruct response as [| | | | | |d]; try discriminate.
      unfold check_response.
      destruct (lookup "homeworks" d) as [hw|] eqn:Hhw; [|discriminate].
      destruct (mem "current_date" d) eqn:Hcd; [|discriminate].
      intros H. exists d, hw. repeat split; try assumption.
      destruct hw; try reflexivity. discriminate.
    + intros (d & hw & -> & Hhw & Hcd & Hnl). unfold check_response.
      rewrite Hhw, Hcd. destruct hw; try reflexivity. discriminate.
  - intros l. apply check_response_returns.
Qed.

(** C9.  [get_api_answer] turns a connection error of the HTTP client into
    a plain exception with a fixed text; on a response whose status is not
    200 it raises a plain exception whose text ends with the status code;
    on a response with status 200 it gives what [response.json()] gives:
    the decoded body. *)
Theorem C9_get_api_answer (w : world) (timestamp : pyval) :
  (forall error,
      requests_get w timestamp = Fails error ->
      isinstance error ConnectionError = true ->
      get_api_answer w timestamp
      = raise Exception "Ошибка при запросе к эндпоинту API-сервиса")
  /\ (forall response,
         requests_get w timestamp = Responds response ->
         status_code response <> 200 ->
         get_api_answer w timestamp
         = raise Exception
             ("Неожиданный ответ сервера: " ++ str_int (status_code response))
         /\ str_contains
              ("Неожиданный ответ сервера: " ++ str_int (status_code response))
              (str_int (status_code response)) = true)
  /\ (forall response,
         requests_get w timestamp = Responds response ->
         status_code response = 200 ->
         get_api_answer w timestamp = json response).
Proof.
  unfold get_api_answer. split; [|split].
  - intros error -> ->. reflexivity.
  - intros response -> Hcode.
    destruct (Z.eqb_spec (status_code response) 200) as [|_]; [contradiction|].
    split; [reflexivity | apply str_contains_suffix].
  - intros response -> ->. reflexivity.
Qed.

(** ** The program on concrete inputs *)

(** C1, the claim as stated, fails.  After a cycle that went through and a
    first HTTP 500 that was notified, two more cycles fail with the same
    text: across these two consecutive failing cycles nothing is sent. *)
Lemma C1_third_identical_failure_is_silent :
  final (main_loop repr_plain
           [serving (http_200 body_empty) 5; serving http_500 6] (startup 7))
  = after_500 (PInt 1700000100)
  /\ value (attempt repr_plain (serving http_500 6)
              (after_500 (PInt 1700000100))) = Raise error_500
  /\ failure_text repr_plain error_500 = text_500
  /\ isinstance error_500 EasyError = false
  /\ cycle repr_plain (serving http_500 6) (after_500 (PInt 1700000100))
     = Outcome (after_500 (PInt 1700000100))
         [Log ERROR text_500; Sleep 600] (Ok tt)
  /\ dispatched
       (trace (main_loop repr_plain
                 [serving http_500 6; serving http_500 6]
                 (after_500 (PInt 1700000100))))
     = [].
Proof. repeat split; vm_compute; reflexivity. Qed.

(** C2.  Two errors that a cycle does not contain.  In the first cycle
    after startup an HTTP 500 makes the handler compare with a remembered
    text that no assignment has bound: the unbound-local error leaves the
    loop and [main], and the later cycles never run.  After a cycle that
    went through, an HTTP 500 whose notification the chat refuses lets the
    error of the transport leave the loop in the same way. *)
Theorem C2_errors_that_leave_the_loop :
  cycle repr_plain (serving http_500 6) (startup 7)
  = Outcome (startup 7) [Log ERROR text_500; Sleep 600]
      (Raise unbound_error_message)
  /\ main repr_plain all_set 7
       [serving http_500 6; serving (http_200 body_hw1_approved) 8]
     = Some (Outcome (startup 7) [Log ERROR text_500; Sleep 600]
               (Raise unbound_error_message))
  /\ cycle repr_plain (chat_down (serving http_500 6)) (after_success (PInt 7))
     = Outcome (after_success (PInt 7))
         [Log ERROR text_500; BotSend text_500 false; Sleep 600]
         (raise TelegramError "Timed out")
  /\ main repr_plain all_set 7
       [serving (http_200 body_empty) 5; chat_down (serving http_500 6);
        serving (http_200 body_hw1_approved) 8]
     = Some (Outcome (after_success (PInt 1700000100))
               [Log DEBUG "Новые статусы отсутвуют"; Sleep 600;
                Log ERROR text_500; BotSend text_500 false; Sleep 600]
               (raise TelegramError "Timed out")).
Proof. repeat split; vm_compute; reflexivity. Qed.

(** C5.  A first record without homework_name, or without status, makes
    [parse_status] raise a [KeyError], which is outside the easy class: in
    a cycle after one that went through, it is formatted and sent to the
    chat.  A response without current_date, in the same state, raises the
    missing-field error of [check_response], which is only logged. *)
Theorem C5_missing_name_is_notified :
  parse_status repr_plain (PDict [("status", PStr "approved")])
  = raise KeyError "Отсутствует поле homework_name в ответе API"
  /\ parse_status repr_plain (PDict [("homework_name", PStr "hw1")])
     = raise KeyError "Отсутствует поле status в ответе API"
  /\ issubclass KeyError EasyError = false
  /\ cycle repr_plain (serving (http_200 body_nameless) 5)
       (after_success (PInt 1))
     = Outcome {| current_timestamp := PInt 1;
                  error_message := Some text_nameless |}
         [Log ERROR text_nameless; BotSend text_nameless true; Sleep 600]
         (Ok tt)
  /\ cycle repr_plain
       (serving (http_200 (PDict [("homeworks", PList [])])) 5)
       (after_success (PInt 1))
     = Outcome (after_success (PInt 1))
         [Log ERROR "Отсутствует поле current_date в ответе API"; Sleep 600]
         (Ok tt).
Proof. repeat split; vm_compute; reflexivity. Qed.

(** C8.  With a chat that refuses every text: the send of a status text
    is caught inside [send_message], logged, and the cycle goes through
    with its cursor moved; the send of a failure notification is made
    outside [send_message], and the error of the transport leaves the
    handler and the loop. *)
Theorem C8_failure_notification_not_contained :
  cycle repr_plain (chat_down (serving (http_200 body_hw1_approved) 5))
    (after_success (PInt 1))
  = Outcome (after_success (PInt 1700000000))
      [BotSend text_hw1_approved false;
       Log DEBUG "Ошибка при отправке сообщения Timed out"; Sleep 600]
      (Ok tt)
  /\ cycle repr_plain (chat_down (serving http_500 5)) (after_success (PInt 1))
     = Outcome (after_success (PInt 1))
         [Log ERROR text_500; BotSend text_500 false; Sleep 600]
         (raise TelegramError "Timed out").
Proof. repeat split; vm_compute; reflexivity. Qed.

(** C3, the claim as stated, fails.  A status outside the table does not
    always give the exception of an unknown status: a record without
    homework_name raises the [KeyError] about the name before its status
    is looked at, and a status that is a list makes the test against the
    table itself raise a [TypeError]. *)
Lemma C3_unknown_status_other_errors :
  verdict_of (PStr "lost") = None
  /\ parse_status repr_plain (PDict [("status", PStr "lost")])
     = raise KeyError "Отсутствует поле homework_name в ответе API"
  /\ parse_status repr_plain (PDict [("status", PStr "lost")])
     <> raise Exception "Неизвестный статус"
  /\ verdict_of (PList [PStr "approved"]) = None
  /\ parse_status repr_plain
       (PDict [("homework_name", PStr "hw1");
               ("status", PList [PStr "approved"])])
     = raise TypeError ("unhashable type: " ++ quoted "list")
  /\ parse_status repr_plain
       (PDict [("homework_name", PStr "hw1");
               ("status", PList [PStr "approved"])])
     <> raise Exception "Неизвестный статус".
Proof.
  repeat split; try (vm_compute; reflexivity); vm_compute; discriminate.
Qed.

(** C10, the claim as stated, fails.  A mapping with a list under
    homeworks and a text under current_date passes validation, but its
    first record has a status outside the table: the cycle fails and the
    cursor stays what it was. *)
Lemma C10_date_of_failed_cycle_not_adopted :
  check_response body_unknown_status
  = Ok [PDict [("homework_name", PStr "hw1"); ("status", PStr "lost")]]
  /\ lookup "current_date"
       [("homeworks",
         PList [PDict [("homework_name", PStr "hw1"); ("status", PStr "lost")]]);
        ("current_date", PStr "tomorrow")]
     = Some (PStr "tomorrow")
  /\ get_api_answer (serving (http_200 body_unknown_status) 5) (PInt 7)
     = Ok body_unknown_status
  /\ current_timestamp
       (final (cycle repr_plain (serving (http_200 body_unknown_status) 5)
                 (after_success (PInt 7))))
     = PInt 7
  /\ current_timestamp
       (final (cycle repr_plain (serving (http_200 body_unknown_status) 5)
                 (after_success (PInt 7))))
     <> PStr "tomorrow".
Proof.
  repeat split; try (vm_compute; reflexivity).
  vm_compute. discriminate.
Qed.

(** ** The theorems at work on the sample worlds *)

(** Two HTTP 500 in a row after a cycle that went through: one
    notification; an unreachable API after an HTTP 500: a second one. *)
Lemma C1_witness :
  delivered
    (trace (cycle repr_plain (serving http_500 6) (after_success (PInt 7)))
       ++ trace (cycle repr_plain (serving http_500 6)
                   (final (cycle repr_plain (serving http_500 6)
                             (after_success (PInt 7))))))
  = [text_500]
  /\ delivered
       (trace (cycle repr_plain (unreachable 8)
                 (final (cycle repr_plain (serving http_500 6)
                           (after_success (PInt 7))))))
     = [text_unreachable].
Proof.
  split.
  - destruct (C1_consecutive_failures repr_plain
                (serving http_500 6) (serving http_500 6)
                (after_success (PInt 7)) error_500 error_500
                eq_refl eq_refl eq_refl eq_refl eq_refl eq_refl)
      as [Hsame _].
    destruct (Hsame eq_refl) as (_ & Hone & _).
    apply Hone. simpl. discriminate.
  - destruct (C1_consecutive_failures repr_plain
                (serving http_500 6) (unreachable 8)
                (after_success (PInt 7)) error_500 error_unreachable
                eq_refl eq_refl eq_refl eq_refl eq_refl eq_refl)
      as [_ Hdiff].
    apply Hdiff. vm_compute. discriminate.
Defined.

(** The record of the first example, and the same record with a status
    outside the table. *)
Lemma C3_witness :
  parse_status repr_plain
    (PDict [("homework_name", PStr "hw1"); ("status", PStr "approved")])
  = Ok text_hw1_approved
  /\ parse_status repr_plain
       (PDict [("homework_name", PStr "hw1"); ("status", PStr "lost")])
     = raise Exception "Неизвестный статус".
Proof.
  split.
  - destruct (C3_parse_status repr_plain
                [("homework_name", PStr "hw1"); ("status", PStr "approved")]
                (PStr "hw1") (PStr "approved") eq_refl eq_refl) as [Hin _].
    apply (Hin "Работа проверена: ревьюеру всё понравилось. Ура!").
    reflexivity.
  - destruct (C3_parse_status repr_plain
                [("homework_name", PStr "hw1"); ("status", PStr "lost")]
                (PStr "hw1") (PStr "lost") eq_refl eq_refl) as [_ Hout].
    apply Hout; reflexivity.
Defined.

(** The response of the first example, and a response that is a list. *)
Lemma C4_witness :
  check_response body_hw1_approved
  = Ok [PDict [("homework_name", PStr "hw1"); ("status", PStr "approved")]]
  /\ check_response (PList []) = raise TypeError "Тип ответа API не является словарем".
Proof.
  split.
  - destruct (C4_check_response body_hw1_approved) as (_ & _ & _ & Hok).
    apply Hok. eexists. repeat split; reflexivity.
  - destruct (C4_check_response (PList [])) as (Hmap & _).
    apply Hmap. reflexivity.
Defined.

(** An HTTP 500 that was notified, an empty answer, an HTTP 500 again. *)
Lemma C6_witness :
  error_message
    (final (cycle repr_plain (serving (http_200 body_empty) 5)
              (after_500 (PInt 7))))
  = Some EmptyString
  /\ dispatched
       (trace (cycle repr_plain (serving http_500 6)
                 (final (cycle repr_plain (serving (http_200 body_empty) 5)
                           (after_500 (PInt 7))))))
     = [text_500].
Proof.
  destruct (C6_success_resets repr_plain (serving (http_200 body_empty) 5)
              (after_500 (PInt 7)) eq_refl) as [Hreset Hagain].
  split; [exact Hreset|].
  destruct (Hagain (serving http_500 6) error_500 eq_refl eq_refl)
    as [Hsent _].
  exact Hsent.
Defined.

(** The first cycle after startup: the date of the response on success,
    the time of startup on failure. *)
Lemma C7_witness :
  current_timestamp
    (final (cycle repr_plain (serving (http_200 body_hw1_approved) 5)
              (startup 7)))
  = PInt 1700000000
  /\ current_timestamp
       (final (cycle repr_plain (serving http_500 5) (startup 7)))
     = PInt 7.
Proof.
  destruct (C7_cursor repr_plain) as (_ & Hmoves & Hstays).
  split.
  - destruct (Hmoves (serving (http_200 body_hw1_approved) 5) (startup 7)
                eq_refl) as (d & Hapi & Hcursor).
    rewrite Hcursor. injection Hapi as <-. reflexivity.
  - exact (Hstays (serving http_500 5) (startup 7) error_500 eq_refl).
Defined.

(** The HTTP 500 of the third example. *)
Lemma C9_witness :
  get_api_answer (serving http_500 5) (PInt 7)
  = raise Exception "Неожиданный ответ сервера: 500"
  /\ str_contains "Неожиданный ответ сервера: 500" "500" = true.
Proof.
  destruct (C9_get_api_answer (serving http_500 5) (PInt 7)) as (_ & Hstatus & _).
  apply (Hstatus http_500); [reflexivity | discriminate].
Defined.

(** An empty answer whose date is a text. *)
Lemma C10_witness :
  check_response body_text_date = Ok []
  /\ current_timestamp
       (final (cycle repr_plain (serving (http_200 body_text_date) 5)
                 (startup 7)))
     = PStr "tomorrow".
Proof.
  destruct (C10_current_date_unexamined repr_plain
              [("homeworks", PList []); ("current_date", PStr "tomorrow")]
              [] (PStr "tomorrow") eq_refl eq_refl) as [Hvalid Hcursor].
  split; [exact Hvalid|].
  apply (Hcursor (serving (http_200 body_text_date) 5) (startup 7));
    [reflexivity | exact I].
Defined.

(** * Further properties of the program *)

(** ** The functions one by one *)

(** X2.  [check_response] tests in a fixed order: a dict without homeworks
    gets the error about homeworks also when current_date is missing too,
    and a dict with homeworks but without current_date gets the error about
    current_date also when homeworks is not a list. *)
Theorem X2_check_response_order (d : list (string * pyval)) :
  (lookup "homeworks" d = None ->
   check_response (PDict d)
   = raise EmptyKeyError "Отсутствует поле homeworks в ответе API")
  /\ (forall homeworks,
         lookup "homeworks" d = Some homeworks ->
         lookup "current_date" d = None ->
         check_response (PDict d)
         = raise EmptyKeyError "Отсутствует поле current_date в ответе API").
Proof.
  unfold check_response, mem. split.
  - intros ->. reflexivity.
  - intros homeworks -> ->. reflexivity.
Qed.

(** A list in place of homeworks, and no date. *)
Lemma X2_witness :
  check_response (PDict [("current_date", PInt 1)])
  = raise EmptyKeyError "Отсутствует поле homeworks в ответе API"
  /\ check_response (PDict [("homeworks", PStr "none")])
     = raise EmptyKeyError "Отсутствует поле current_date в ответе API".
Proof.
  split.
  - destruct (X2_check_response_order [("current_date", PInt 1)]) as [H _].
    exact (H eq_refl).
  - destruct (X2_check_response_order [("homeworks", PStr "none")])
      as [_ H].
    exact (H (PStr "none") eq_refl eq_refl).
Defined.

(** X7.  [get_api_answer] returns a body exactly when the HTTP client
    returned a response with status 200 whose body decodes to it; and an
    error of the client that is no connection error comes out as it is. *)
Theorem X7_get_api_answer_returns (w : world) (timestamp : pyval) :
  (forall body,
      get_api_answer w timestamp = Ok body
      <-> exists response,
            requests_get w timestamp = Responds response
            /\ status_code response = 200
            /\ json response = Ok body)
  /\ (forall error,
         requests_get w timestamp = Fails error ->
         isinstance error ConnectionError = false ->
         get_api_answer w timestamp = Raise error).
Proof.
  unfold get_api_answer. split.
  - intros body. split.
    + destruct (requests_get w timestamp) as [error|response].
      * destruct (isinstance error ConnectionError); discriminate.
      * destruct (Z.eqb_spec (status_code response) 200) as [Hcode|_];
          [|discriminate].
        intros H. now exists response.
    + intros (response & -> & -> & ->). reflexivity.
  - intros error -> ->. reflexivity.
Qed.

(** A status 200 with the body of the first example; a client that times
    out. *)
Lemma X7_witness :
  get_api_answer (serving (http_200 body_hw1_approved) 5) (PInt 7)
  = Ok body_hw1_approved
  /\ get_api_answer (timing_out 5) (PInt 7)
     = raise RequestException "Read timed out.".
Proof.
  destruct (X7_get_api_answer_returns
              (serving (http_200 body_hw1_approved) 5) (PInt 7)) as [Hok _].
  destruct (X7_get_api_answer_returns (timing_out 5) (PInt 7)) as [_ Hout].
  split.
  - apply Hok. exists (http_200 body_hw1_approved).
    repeat split; reflexivity.
  - exact (Hout _ eq_refl eq_refl).
Defined.

Section Functions.

Variable repr : pyval -> string.

(** X1.  [main] ends before the loop exactly when one of the three
    settings is not set or is empty; nothing of the loop has run then. *)
Theorem X1_startup_needs_every_setting (env : environ) (now : Z)
    (ws : list world) :
  main repr env now ws = None
  <-> unset (PRACTICUM_TOKEN env) \/ unset (TELEGRAM_TOKEN env)
      \/ unset (TELEGRAM_CHAT_ID env).
Proof.
  assert (Htruthy : forall v, truthy v = false <-> unset v).
  { intros [v|]; unfold truthy, unset.
    - destruct (String.eqb_spec v EmptyString) as [->|Hv]; simpl.
      + split; auto.
      + split; [discriminate | intros [H|H]; congruence].
    - split; auto. }
  unfold main, check_tokens; cbn [forallb].
  rewrite <- !Htruthy.
  destruct (truthy (TELEGRAM_TOKEN env)), (truthy (TELEGRAM_CHAT_ID env)),
    (truthy (PRACTICUM_TOKEN env)); simpl;
    split; auto; try discriminate; intros [H|[H|H]]; discriminate.
Qed.

(** X3.  [parse_status] returns a text only for a dict that holds both
    keys and whose status is one of the three texts of the table; the text
    is then the one built from the name and the entry of that status. *)
Theorem X3_parse_status_returns (homework : pyval) (message : string) :
  parse_status repr homework = Ok message ->
  exists d name s verdict,
    homework = PDict d
    /\ lookup "homework_name" d = Some name
    /\ lookup "status" d = Some (PStr s)
    /\ lookup s HOMEWORK_VERDICTS = Some verdict
    /\ (s = "approved" \/ s = "reviewing" \/ s = "rejected")
    /\ message = "Изменился статус проверки работы " ++ dquote
                   ++ py_str repr name ++ dquote ++ ". " ++ verdict.
Proof.
  unfold parse_status.
  destruct homework as [| | | |s|l|d]; try discriminate.
  - unfold py_in, bind_result.
    destruct (str_contains s "homework_name"); [|discriminate].
    destruct (str_contains s "status"); discriminate.
  - unfold py_in, bind_result.
    destruct (existsb _ l); [|discriminate].
    destruct (existsb _ l); discriminate.
  - unfold py_in, py_getitem, mem, bind_result.
    destruct (lookup "homework_name" d) as [name|] eqn:Hname; [|discriminate].
    destruct (lookup "status" d) as [status|] eqn:Hstatus; [|discriminate].
    cbn [negb].
    destruct status as [| | | |s| |]; try discriminate.
    unfold table_in, table_getitem, mem.
    destruct (lookup s HOMEWORK_VERDICTS) as [verdict|] eqn:Hs;
      [|discriminate].
    cbn [negb]. intros [= <-].
    exists d, name, s, verdict.
    repeat split; try reflexivity; try assumption.
    unfold HOMEWORK_VERDICTS, lookup in Hs.
    destruct (String.eqb_spec "approved" s) as [<-|_]; [left; reflexivity|].
    destruct (String.eqb_spec "reviewing" s) as [<-|_];
      [right; left; reflexivity|].
    destruct (String.eqb_spec "rejected" s) as [<-|_];
      [right; right; reflexivity|].
    discriminate.
Qed.

(** X4.  A record without homework_name gets the error about the name
    whatever else it holds, and a record with a name but without status
    gets the error about the status; both are the builtin [KeyError]. *)
Theorem X4_parse_status_missing_key (d : list (string * pyval)) :
  (lookup "homework_name" d = None ->
   parse_status repr (PDict d)
   = raise KeyError "Отсутствует поле homework_name в ответе API")
  /\ (forall name,
         lookup "homework_name" d = Some name ->
         lookup "status" d = None ->
         parse_status repr (PDict d)
         = raise KeyError "Отсутствует поле status в ответе API").
Proof.
  unfold parse_status, py_in, mem, bind_result. split.
  - intros ->. reflexivity.
  - intros name -> ->. reflexivity.
Qed.

(** X5.  On an element of the list that is no dict, [parse_status] never
    returns: it raises a [KeyError] or a [TypeError]. *)
Theorem X5_parse_status_not_a_dict (homework : pyval) :
  is_dict homework = false ->
  exists e,
    parse_status repr homework = Raise e
    /\ (exn_cls e = KeyError \/ exn_cls e = TypeError).
Proof.
  intros Hnd. unfold parse_status.
  destruct homework as [| | | |s|l|d]; try discriminate;
    try (eexists; split; [reflexivity | right; reflexivity]).
  - unfold py_in, bind_result.
    destruct (str_contains s "homework_name");
      [|eexists; split; [reflexivity | left; reflexivity]].
    destruct (str_contains s "status");
      eexists; (split; [reflexivity|]); [right | left]; reflexivity.
  - unfold py_in, bind_result.
    destruct (existsb _ l);
      [|eexists; split; [reflexivity | left; reflexivity]].
    destruct (existsb _ l);
      eexists; (split; [reflexivity|]); [right | left]; reflexivity.
Qed.

(** X6.  [send_message] hands the text to the chat exactly once, logs the
    delivery at info level or the error of the transport at debug level,
    leaves the locals as they are and returns in both cases. *)
Theorem X6_send_message (w : world) (message : string) (st : locals) :
  send_message repr w message st
  = Outcome st
      (match bot_send_message w message with
       | None => [BotSend message true; Log INFO "Сообщение отправлено"]
       | Some err =>
           [BotSend message false;
            Log DEBUG ("Ошибка при отправке сообщения " ++ err)]
       end)
      (Ok tt).
Proof.
  unfold send_message, try_except, bot_send, bind.
  destruct (bot_send_message w message); reflexivity.
Qed.

End Functions.

(** All settings but the chat. *)
Lemma X1_witness :
  main repr_plain chat_unset 7 [serving (http_200 body_empty) 5] = None
  /\ main repr_plain all_set 7 [] <> None.
Proof.
  split.
  - apply X1_startup_needs_every_setting. right; right; right. reflexivity.
  - intros H. apply X1_startup_needs_every_setting in H.
    destruct H as [[H|H]|[[H|H]|[H|H]]]; discriminate.
Defined.

(** The record of the first example. *)
Lemma X3_witness :
  exists d name s verdict,
    PDict [("homework_name", PStr "hw1"); ("status", PStr "approved")]
    = PDict d
    /\ lookup "homework_name" d = Some name
    /\ lookup "status" d = Some (PStr s)
    /\ lookup s HOMEWORK_VERDICTS = Some verdict
    /\ (s = "approved" \/ s = "reviewing" \/ s = "rejected")
    /\ text_hw1_approved
       = "Изменился статус проверки работы " ++ dquote
           ++ py_str repr_plain name ++ dquote ++ ". " ++ verdict.
Proof.
  exact (X3_parse_status_returns repr_plain
           (PDict [("homework_name", PStr "hw1"); ("status", PStr "approved")])
           text_hw1_approved eq_refl).
Defined.

(** A record with an unknown status and no name; a record with a name
    only. *)
Lemma X4_witness :
  parse_status repr_plain (PDict [("status", PStr "lost")])
  = raise KeyError "Отсутствует поле homework_name в ответе API"
  /\ parse_status repr_plain (PDict [("homework_name", PStr "hw1")])
     = raise KeyError "Отсутствует поле status в ответе API".
Proof.
  split.
  - destruct (X4_parse_status_missing_key repr_plain
                [("status", PStr "lost")]) as [H _].
    exact (H eq_refl).
  - destruct (X4_parse_status_missing_key repr_plain
                [("homework_name", PStr "hw1")]) as [_ H].
    exact (H (PStr "hw1") eq_refl eq_refl).
Defined.

(** A text that holds both key names, in place of a record. *)
Lemma X5_witness :
  exists e,
    parse_status repr_plain (PStr "homework_name, status") = Raise e
    /\ (exn_cls e = KeyError \/ exn_cls e = TypeError).
Proof.
  exact (X5_parse_status_not_a_dict repr_plain
           (PStr "homework_name, status") eq_refl).
Defined.

(** ** The loop *)

Lemma dispatched_app (t1 t2 : list event) :
  dispatched (t1 ++ t2) = (dispatched t1 ++ dispatched t2)%list.
Proof.
  induction t1 as [|ev t1 IH]; [reflexivity|].
  destruct ev; simpl; now rewrite IH.
Qed.

Lemma slept_app (t1 t2 : list event) :
  slept (t1 ++ t2) = (slept t1 ++ slept t2)%list.
Proof.
  induction t1 as [|ev t1 IH]; [reflexivity|].
  destruct ev; simpl; now rewrite IH.
Qed.

Section Loop.

Variable repr : pyval -> string.

Lemma send_message_exact (w : world) (message : string) (st : locals) :
  send_message repr w message st
  = Outcome st
      (match bot_send_message w message with
       | None => [BotSend message true; Log INFO "Сообщение отправлено"]
       | Some err =>
           [BotSend message false;
            Log DEBUG ("Ошибка при отправке сообщения " ++ err)]
       end)
      (Ok tt).
Proof.
  unfold send_message, try_except, bot_send, bind.
  destruct (bot_send_message w message); reflexivity.
Qed.

(** The body of the [try] on an answer without records. *)
Lemma attempt_of_empty (w : world) (st : locals) (d : list (string * pyval))
    (date : pyval) :
  get_api_answer w (current_timestamp st) = Ok (PDict d) ->
  lookup "homeworks" d = Some (PList []) ->
  lookup "current_date" d = Some date ->
  attempt repr w st
  = Outcome (after_success date) [Log DEBUG "Новые статусы отсутвуют"] (Ok tt).
Proof.
  intros Hapi Hhw Hdate.
  assert (Hcheck : check_response (PDict d) = Ok []).
  { apply check_response_returns. exists d.
    repeat split; [exact Hhw | apply mem_true_iff; now exists date]. }
  unfold attempt, bind, lift, get_current_timestamp; cbn [value final trace].
  rewrite Hapi; cbn [value final trace].
  rewrite Hcheck; cbn [value final trace].
  unfold emit, py_get; cbn [value final trace]. rewrite Hdate. reflexivity.
Qed.

(** The body of the [try] on an answer with records: the first one decides. *)
Lemma attempt_of_first (w : world) (st : locals) (d : list (string * pyval))
    (homework : pyval) (rest : list pyval) (date : pyval) :
  get_api_answer w (current_timestamp st) = Ok (PDict d) ->
  lookup "homeworks" d = Some (PList (homework :: rest)) ->
  lookup "current_date" d = Some date ->
  attempt repr w st
  = match parse_status repr homework with
    | Ok status =>
        Outcome (after_success date)
          (trace (send_message repr w status st)) (Ok tt)
    | Raise e => Outcome st [] (Raise e)
    end.
Proof.
  intros Hapi Hhw Hdate.
  assert (Hcheck : check_response (PDict d) = Ok (homework :: rest)).
  { apply check_response_returns. exists d.
    repeat split; [exact Hhw | apply mem_true_iff; now exists date]. }
  unfold attempt, bind, lift, get_current_timestamp; cbn [value final trace].
  rewrite Hapi; cbn [value final trace].
  rewrite Hcheck; cbn [value final trace].
  destruct (parse_status repr homework) as [status|e];
    cbn [value final trace]; [|reflexivity].
  rewrite send_message_exact; cbn [value final trace].
  unfold py_get; rewrite Hdate.
  unfold set_current_timestamp, set_error_message;
    cbn [value final trace app current_timestamp].
  rewrite ?app_nil_r. reflexivity.
Qed.

(** Whether the body raises, and what, depends on the cursor only. *)
Lemma attempt_same_cursor (w : world) (st st' : locals) :
  current_timestamp st = current_timestamp st' ->
  value (attempt repr w st) = value (attempt repr w st').
Proof.
  intros Hcursor.
  unfold attempt, bind, lift, get_current_timestamp; cbn [value final trace].
  rewrite <- Hcursor.
  destruct (get_api_answer w (current_timestamp st)) as [response|e];
    cbn [value final trace]; [|reflexivity].
  destruct (check_response response) as [homeworks|e];
    cbn [value final trace]; [|reflexivity].
  destruct homeworks as [|homework rest]; cbn [value final trace].
  - unfold emit; cbn [value final trace].
    destruct (py_get response "current_date" (PInt (time_now w)));
      reflexivity.
  - destruct (parse_status repr homework) as [status|e];
      cbn [value final trace]; [|reflexivity].
    rewrite !send_message_exact; cbn [value final trace].
    destruct (py_get response "current_date" (PInt (time_now w)));
      reflexivity.
Qed.

(** What a body that returns has done outside: a debug line, or one send
    with its log line. *)
Lemma attempt_trace_shape (w : world) (st : locals) :
  value (attempt repr w st) = Ok tt ->
  slept (trace (attempt repr w st)) = []
  /\ (length (dispatched (trace (attempt repr w st))) <= 1)%nat.
Proof.
  intros Hok.
  destruct (attempt_returns repr w st Hok)
    as (d & homeworks & date & Hapi & Hcheck & Hdate & _).
  apply check_response_returns in Hcheck as (d' & [= <-] & Hhw & _).
  destruct homeworks as [|homework rest].
  - rewrite (attempt_of_empty w st d date Hapi Hhw Hdate). simpl. auto.
  - rewrite (attempt_of_first w st d homework rest date Hapi Hhw Hdate) in *.
    destruct (parse_status repr homework) as [status|e]; [|discriminate].
    rewrite send_message_exact; cbn [trace].
    destruct (bot_send_message w status); simpl; auto.
Qed.

(** A cycle whose body raised, in one equation. *)
Lemma cycle_of_raise (w : world) (st : locals) (e : exn) :
  value (attempt repr w st) = Raise e ->
  cycle repr w st
  = if isinstance e EasyError
    then Outcome st [Log ERROR (str_exn repr e); Sleep RETRY_TIME] (Ok tt)
    else
      match error_message st with
      | None =>
          Outcome st [Log ERROR (failure_text repr e); Sleep RETRY_TIME]
            (Raise unbound_error_message)
      | Some remembered =>
          if String.eqb (failure_text repr e) remembered
          then Outcome st [Log ERROR (failure_text repr e); Sleep RETRY_TIME]
                 (Ok tt)
          else
            match bot_send_message w (failure_text repr e) with
            | None =>
                Outcome {| current_timestamp := current_timestamp st;
                           error_message := Some (failure_text repr e) |}
                  [Log ERROR (failure_text repr e);
                   BotSend (failure_text repr e) true; Sleep RETRY_TIME]
                  (Ok tt)
            | Some err =>
                Outcome st
                  [Log ERROR (failure_text repr e);
                   BotSend (failure_text repr e) false; Sleep RETRY_TIME]
                  (raise TelegramError err)
            end
      end.
Proof.
  intros H. apply attempt_raises in H.
  unfold cycle, try_finally, try_except, handlers.
  rewrite H; cbn [value final trace].
  destruct (isinstance e EasyError); [reflexivity|].
  change (isinstance e Exception) with true.
  unfold bind, read_error_message, emit, bot_send; cbn [value final trace].
  destruct (error_message st) as [remembered|]; cbn [value final trace];
    [|reflexivity].
  destruct (String.eqb (failure_text repr e) remembered);
    cbn [negb value final trace]; [reflexivity|].
  destruct (bot_send_message w (failure_text repr e)); reflexivity.
Qed.

(** Every cycle: some calls with no pause and at most one send, then the
    pause. *)
Lemma cycle_trace_shape (w : world) (st : locals) :
  exists t,
    trace (cycle repr w st) = (t ++ [Sleep RETRY_TIME])%list
    /\ slept t = []
    /\ (length (dispatched t) <= 1)%nat.
Proof.
  destruct (value (attempt repr w st)) as [[]|e] eqn:Hv.
  - rewrite (cycle_of_success repr w st Hv); cbn [trace].
    exists (trace (attempt repr w st)).
    split; [reflexivity | now apply attempt_trace_shape].
  - rewrite (cycle_of_raise w st e Hv).
    destruct (isinstance e EasyError).
    { exists [Log ERROR (str_exn repr e)]. simpl. auto. }
    destruct (error_message st) as [remembered|].
    2:{ exists [Log ERROR (failure_text repr e)]. simpl. auto. }
    destruct (String.eqb (failure_text repr e) remembered).
    { exists [Log ERROR (failure_text repr e)]. simpl. auto. }
    destruct (bot_send_message w (failure_text repr e)).
    + exists [Log ERROR (failure_text repr e);
              BotSend (failure_text repr e) false]. simpl. auto.
    + exists [Log ERROR (failure_text repr e);
              BotSend (failure_text repr e) true]. simpl. auto.
Qed.

(** What a cycle can let out, and when. *)
Lemma cycle_raises (w : world) (st : locals) (e : exn) :
  value (cycle repr w st) = Raise e ->
  (error_message st = None /\ e = unbound_error_message)
  \/ (error_message st <> None /\ exn_cls e = TelegramError).
Proof.
  destruct (value (attempt repr w st)) as [[]|e0] eqn:Hv.
  - rewrite (cycle_of_success repr w st Hv). discriminate.
  - rewrite (cycle_of_raise w st e0 Hv).
    destruct (isinstance e0 EasyError); [discriminate|].
    destruct (error_message st) as [remembered|].
    2:{ intros [= <-]. left. split; reflexivity. }
    destruct (String.eqb (failure_text repr e0) remembered); [discriminate|].
    destruct (bot_send_message w (failure_text repr e0)); [|discriminate].
    intros [= <-]. right. split; [discriminate | reflexivity].
Qed.

(** A remembered text that is bound stays bound. *)
Lemma cycle_keeps_bound (w : world) (st : locals) :
  error_message st <> None ->
  error_message (final (cycle repr w st)) <> None.
Proof.
  intros Hbound.
  destruct (value (attempt repr w st)) as [[]|e] eqn:Hv.
  - destruct (attempt_returns repr w st Hv) as (d & hws & date & _ & _ & _ & Hfin).
    rewrite (cycle_of_success repr w st Hv); cbn [final]. rewrite Hfin.
    discriminate.
  - rewrite (cycle_of_raise w st e Hv).
    destruct (isinstance e EasyError); [exact Hbound|].
    destruct (error_message st) as [remembered|] eqn:Hrem; [|contradiction].
    destruct (String.eqb (failure_text repr e) remembered);
      [cbn [final]; congruence|].
    destruct (bot_send_message w (failure_text repr e)); cbn [final];
      [congruence | discriminate].
Qed.

(** The loop, one cycle at a time. *)
Lemma main_loop_cons (w : world) (ws : list world) (st : locals) :
  main_loop repr (w :: ws) st
  = match value (cycle repr w st) with
    | Ok _ =>
        Outcome (final (main_loop repr ws (final (cycle repr w st))))
          (trace (cycle repr w st)
             ++ trace (main_loop repr ws (final (cycle repr w st))))
          (value (main_loop repr ws (final (cycle repr w st))))
    | Raise e =>
        Outcome (final (cycle repr w st)) (trace (cycle repr w st)) (Raise e)
    end.
Proof. reflexivity. Qed.

End Loop.

Section LoopProperties.

Variable repr : pyval -> string.

Lemma attempt_of_api_error (w : world) (st : locals) (e : exn) :
  get_api_answer w (current_timestamp st) = Raise e ->
  value (attempt repr w st) = Raise e.
Proof.
  intros Hapi.
  unfold attempt, bind, lift, get_current_timestamp; cbn [value final trace].
  rewrite Hapi. reflexivity.
Qed.

Lemma attempt_of_invalid (w : world) (st : locals) (response : pyval)
    (e : exn) :
  get_api_answer w (current_timestamp st) = Ok response ->
  check_response response = Raise e ->
  value (attempt repr w st) = Raise e.
Proof.
  intros Hapi Hcheck.
  unfold attempt, bind, lift, get_current_timestamp; cbn [value final trace].
  rewrite Hapi; cbn [value final trace]. rewrite Hcheck. reflexivity.
Qed.

(** Two worlds with the same chat in which the body does the same give
    the same cycle. *)
Lemma cycle_ext (w1 w2 : world) (st : locals) :
  attempt repr w1 st = attempt repr w2 st ->
  (forall text, bot_send_message w1 text = bot_send_message w2 text) ->
  cycle repr w1 st = cycle repr w2 st.
Proof.
  intros Hbody Hchat.
  destruct (value (attempt repr w1 st)) as [[]|e] eqn:Hv.
  - rewrite (cycle_of_success repr w1 st Hv).
    rewrite Hbody in Hv. rewrite (cycle_of_success repr w2 st Hv).
    now rewrite Hbody.
  - rewrite (cycle_of_raise repr w1 st e Hv).
    rewrite Hbody in Hv. rewrite (cycle_of_raise repr w2 st e Hv).
    now rewrite Hchat.
Qed.

Lemma attempt_at_time (now : Z) (w : world) (st : locals) :
  attempt repr (at_time now w) st = attempt repr w st.
Proof.
  assert (Hsame : get_api_answer (at_time now w) (current_timestamp st)
                  = get_api_answer w (current_timestamp st)) by reflexivity.
  destruct (get_api_answer w (current_timestamp st)) as [response|e] eqn:Hapi.
  - destruct (check_response response) as [homeworks|e] eqn:Hcheck.
    + destruct (py_get_checked response homeworks PNone Hcheck)
        as (d & date & -> & Hdate & _).
      apply check_response_returns in Hcheck as (d' & [= <-] & Hhw & _).
      destruct homeworks as [|homework rest].
      * rewrite (attempt_of_empty repr _ st d date Hsame Hhw Hdate).
        now rewrite (attempt_of_empty repr _ st d date Hapi Hhw Hdate).
      * rewrite (attempt_of_first repr _ st d homework rest date Hsame Hhw
                   Hdate).
        now rewrite (attempt_of_first repr _ st d homework rest date Hapi Hhw
                       Hdate).
    + rewrite (attempt_raises repr _ st e
                 (attempt_of_invalid _ st response e Hsame Hcheck)).
      now rewrite (attempt_raises repr _ st e
                     (attempt_of_invalid _ st response e Hapi Hcheck)).
  - rewrite (attempt_raises repr _ st e (attempt_of_api_error _ st e Hsame)).
    now rewrite (attempt_raises repr _ st e (attempt_of_api_error _ st e Hapi)).
Qed.

(** X8.  Whatever happens in a cycle, its last call is the pause of
    [RETRY_TIME] seconds, and it makes no other pause. *)
Theorem X8_cycle_ends_with_the_pause (w : world) (st : locals) :
  exists t,
    trace (cycle repr w st) = (t ++ [Sleep RETRY_TIME])%list
    /\ slept t = [].
Proof.
  destruct (cycle_trace_shape repr w st) as (t & Ht & Hs & _).
  now exists t.
Qed.

(** X9.  A run of the loop hands at most one text per cycle to the chat. *)
Theorem X9_at_most_one_send_per_cycle (ws : list world) (st : locals) :
  (length (dispatched (trace (main_loop repr ws st))) <= length ws)%nat.
Proof.
  revert st. induction ws as [|w ws IH]; intros st; [apply Nat.le_refl|].
  rewrite main_loop_cons.
  destruct (cycle_trace_shape repr w st) as (t & Ht & _ & Hone).
  assert (Hcycle : (length (dispatched (trace (cycle repr w st))) <= 1)%nat).
  { rewrite Ht, dispatched_app; simpl. now rewrite app_nil_r. }
  destruct (value (cycle repr w st)); cbn [trace length].
  - rewrite dispatched_app, length_app.
    specialize (IH (final (cycle repr w st))). lia.
  - lia.
Qed.

(** X10.  An answer whose list of homeworks is empty: nothing is sent,
    a debug line is logged, the cursor takes the date of the answer and
    the remembered failure text is emptied. *)
Theorem X10_no_new_status (w : world) (st : locals)
    (d : list (string * pyval)) (date : pyval) :
  get_api_answer w (current_timestamp st) = Ok (PDict d) ->
  lookup "homeworks" d = Some (PList []) ->
  lookup "current_date" d = Some date ->
  cycle repr w st
  = Outcome (after_success date)
      [Log DEBUG "Новые статусы отсутвуют"; Sleep RETRY_TIME] (Ok tt).
Proof.
  intros Hapi Hhw Hdate.
  pose proof (attempt_of_empty repr w st d date Hapi Hhw Hdate) as Hbody.
  rewrite cycle_of_success; rewrite Hbody; reflexivity.
Qed.

(** X11.  Of the list of homeworks only the first record counts: two
    answers with the same first record and the same date give the same
    cycle, whatever follows the first record. *)
Theorem X11_only_the_first_record (w1 w2 : world) (st : locals)
    (d1 d2 : list (string * pyval)) (homework : pyval)
    (rest1 rest2 : list pyval) (date : pyval) :
  get_api_answer w1 (current_timestamp st) = Ok (PDict d1) ->
  get_api_answer w2 (current_timestamp st) = Ok (PDict d2) ->
  lookup "homeworks" d1 = Some (PList (homework :: rest1)) ->
  lookup "homeworks" d2 = Some (PList (homework :: rest2)) ->
  lookup "current_date" d1 = Some date ->
  lookup "current_date" d2 = Some date ->
  (forall text, bot_send_message w1 text = bot_send_message w2 text) ->
  cycle repr w1 st = cycle repr w2 st.
Proof.
  intros Hapi1 Hapi2 Hhw1 Hhw2 Hdate1 Hdate2 Hchat.
  apply cycle_ext; [|exact Hchat].
  rewrite (attempt_of_first repr w1 st d1 homework rest1 date Hapi1 Hhw1 Hdate1).
  rewrite (attempt_of_first repr w2 st d2 homework rest2 date Hapi2 Hhw2 Hdate2).
  destruct (parse_status repr homework) as [status|e]; [|reflexivity].
  rewrite !send_message_exact; cbn [trace]. now rewrite Hchat.
Qed.

(** X12.  When the first record gives a status text, the cycle hands that
    text to the chat once and goes through with the cursor moved to the
    date of the answer, whether the chat takes the text or refuses it. *)
Theorem X12_status_cycle (w : world) (st : locals)
    (d : list (string * pyval)) (homework : pyval) (rest : list pyval)
    (date : pyval) (status : string) :
  get_api_answer w (current_timestamp st) = Ok (PDict d) ->
  lookup "homeworks" d = Some (PList (homework :: rest)) ->
  lookup "current_date" d = Some date ->
  parse_status repr homework = Ok status ->
  cycle repr w st
  = Outcome (after_success date)
      (match bot_send_message w status with
       | None =>
           [BotSend status true; Log INFO "Сообщение отправлено";
            Sleep RETRY_TIME]
       | Some err =>
           [BotSend status false;
            Log DEBUG ("Ошибка при отправке сообщения " ++ err);
            Sleep RETRY_TIME]
       end)
      (Ok tt).
Proof.
  intros Hapi Hhw Hdate Hparse.
  pose proof (attempt_of_first repr w st d homework rest date Hapi Hhw Hdate)
    as Hbody.
  rewrite Hparse, send_message_exact in Hbody; cbn [trace] in Hbody.
  rewrite cycle_of_success; rewrite Hbody; [|reflexivity].
  cbn [final trace]. destruct (bot_send_message w status); reflexivity.
Qed.

(** X13.  An answer without homeworks, or without current_date: the
    cycle logs the missing field at error level and does nothing else; it
    sends nothing, keeps both locals and goes on, also when no failure
    text has been bound yet. *)
Theorem X13_missing_response_field (w : world) (st : locals)
    (d : list (string * pyval)) :
  get_api_answer w (current_timestamp st) = Ok (PDict d) ->
  (lookup "homeworks" d = None ->
   cycle repr w st
   = Outcome st
       [Log ERROR "Отсутствует поле homeworks в ответе API";
        Sleep RETRY_TIME] (Ok tt))
  /\ (forall homeworks,
         lookup "homeworks" d = Some homeworks ->
         lookup "current_date" d = None ->
         cycle repr w st
         = Outcome st
             [Log ERROR "Отсутствует поле current_date в ответе API";
              Sleep RETRY_TIME] (Ok tt)).
Proof.
  intros Hapi. split.
  - intros Hhw.
    apply (cycle_of_easy_error repr w st
             (mk_exn EmptyKeyError
                (PStr "Отсутствует поле homeworks в ответе API")));
      [|reflexivity].
    apply (attempt_of_invalid w st (PDict d)); [exact Hapi|].
    unfold check_response. now rewrite Hhw.
  - intros homeworks Hhw Hdate.
    apply (cycle_of_easy_error repr w st
             (mk_exn EmptyKeyError
                (PStr "Отсутствует поле current_date в ответе API")));
      [|reflexivity].
    apply (attempt_of_invalid w st (PDict d)); [exact Hapi|].
    unfold check_response, mem. now rewrite Hhw, Hdate.
Qed.

(** X14.  With a chat transport whose only error is the [TelegramError],
    two exceptions only can leave the loop: the unbound-local error on
    the remembered failure text, and a [TelegramError]; and from locals
    where that text is bound, the [TelegramError] only. *)
Theorem X14_what_ends_the_loop (ws : list world) (st : locals) (e : exn) :
  value (main_loop repr ws st) = Raise e ->
  (e = unbound_error_message \/ exn_cls e = TelegramError)
  /\ (error_message st <> None -> exn_cls e = TelegramError).
Proof.
  revert st. induction ws as [|w ws IH]; intros st; [discriminate|].
  rewrite main_loop_cons.
  destruct (value (cycle repr w st)) as [[]|e0] eqn:Hc; cbn [value].
  - intros Hrest. destruct (IH _ Hrest) as [Hany Hbound].
    split; [exact Hany|].
    intros Hst. apply Hbound. now apply cycle_keeps_bound.
  - intros [= <-].
    destruct (cycle_raises repr w st e0 Hc) as [[Hnone ->]|[_ Hcls]].
    + split; [now left | intros Hst; contradiction].
    + split; [now right | intros _; exact Hcls].
Qed.

(** X15.  A failure outside the easy class that repeats in every cycle:
    from locals whose remembered text is another one, and with a chat that
    takes the text, any number of such cycles in a row sends the text
    exactly once, keeps the cursor and ends with the text remembered. *)
Theorem X15_repeated_failure_sent_once (w : world) (st : locals) (e : exn)
    (remembered : string) (n : nat) :
  value (attempt repr w st) = Raise e ->
  isinstance e EasyError = false ->
  error_message st = Some remembered ->
  remembered <> failure_text repr e ->
  bot_send_message w (failure_text repr e) = None ->
  value (main_loop repr (repeat w (S n)) st) = Ok tt
  /\ dispatched (trace (main_loop repr (repeat w (S n)) st))
     = [failure_text repr e]
  /\ final (main_loop repr (repeat w (S n)) st)
     = {| current_timestamp := current_timestamp st;
          error_message := Some (failure_text repr e) |}.
Proof.
  intros Hfail Heasy Hrem Hnew Hchat.
  assert (Hquiet : forall m st',
             current_timestamp st' = current_timestamp st ->
             error_message st' = Some (failure_text repr e) ->
             value (main_loop repr (repeat w m) st') = Ok tt
             /\ dispatched (trace (main_loop repr (repeat w m) st')) = []
             /\ final (main_loop repr (repeat w m) st') = st').
  { induction m as [|m IHm]; intros st' Hcursor Hsame.
    - repeat split; reflexivity.
    - assert (Hfail' : value (attempt repr w st') = Raise e).
      { rewrite <- Hfail. now apply attempt_same_cursor. }
      cbn [repeat]. rewrite main_loop_cons.
      rewrite (cycle_of_failure_repeated repr w st' e Hfail' Heasy Hsame).
      cbn [value final trace].
      destruct (IHm st' Hcursor Hsame) as (Hv & Hd & Hf).
      rewrite Hv, Hf. repeat split. simpl. exact Hd. }
  cbn [repeat]. rewrite main_loop_cons.
  rewrite (cycle_of_failure_sent repr w st e remembered Hfail Heasy Hrem Hnew
             Hchat).
  cbn [value final trace].
  destruct (Hquiet n {| current_timestamp := current_timestamp st;
                        error_message := Some (failure_text repr e) |}
              eq_refl eq_refl) as (Hv & Hd & Hf).
  rewrite Hv, Hf. repeat split. simpl. now rewrite Hd.
Qed.

(** X16.  A run of the loop that no exception ends has made exactly one
    pause of [RETRY_TIME] seconds per cycle. *)
Theorem X16_one_pause_per_cycle (ws : list world) (st : locals) :
  value (main_loop repr ws st) = Ok tt ->
  slept (trace (main_loop repr ws st)) = repeat RETRY_TIME (length ws).
Proof.
  revert st. induction ws as [|w ws IH]; intros st; [reflexivity|].
  rewrite main_loop_cons.
  destruct (cycle_trace_shape repr w st) as (t & Ht & Hquiet & _).
  destruct (value (cycle repr w st)) as [[]|e]; cbn [value trace];
    [|discriminate].
  intros Hrest. rewrite slept_app, (IH _ Hrest), Ht, slept_app, Hquiet.
  reflexivity.
Qed.

(** X17.  The clock plays no part in a cycle: the fallback of
    [response.get] is never taken, since a validated answer holds
    current_date. *)
Theorem X17_clock_is_never_read (now : Z) (w : world) (st : locals) :
  cycle repr (at_time now w) st = cycle repr w st.
Proof.
  apply cycle_ext; [apply attempt_at_time | reflexivity].
Qed.

(** X18.  An answer with a status other than 200, when the remembered
    failure text is bound to another text and the chat takes the new one:
    the cycle logs and sends the text that ends with the status code,
    remembers it, keeps the cursor, pauses and goes on. *)
Theorem X18_http_status_notified (w : world) (st : locals)
    (response : http_response) (remembered : string) :
  requests_get w (current_timestamp st) = Responds response ->
  status_code response <> 200 ->
  error_message st = Some remembered ->
  remembered
  <> "Сбой в работе программы: Неожиданный ответ сервера: "
       ++ str_int (status_code response) ->
  bot_send_message w
    ("Сбой в работе программы: Неожиданный ответ сервера: "
       ++ str_int (status_code response)) = None ->
  cycle repr w st
  = Outcome
      {| current_timestamp := current_timestamp st;
         error_message :=
           Some ("Сбой в работе программы: Неожиданный ответ сервера: "
                   ++ str_int (status_code response)) |}
      [Log ERROR ("Сбой в работе программы: Неожиданный ответ сервера: "
                    ++ str_int (status_code response));
       BotSend ("Сбой в работе программы: Неожиданный ответ сервера: "
                  ++ str_int (status_code response)) true;
       Sleep RETRY_TIME]
      (Ok tt).
Proof.
  intros Hget Hcode Hrem Hnew Hchat.
  apply (cycle_of_failure_sent repr w st
           (mk_exn Exception
              (PStr ("Неожиданный ответ сервера: "
                       ++ str_int (status_code response))))
           remembered); try assumption; [|reflexivity].
  apply attempt_of_api_error. unfold get_api_answer. rewrite Hget.
  destruct (Z.eqb_spec (status_code response) 200); [contradiction|].
  reflexivity.
Qed.

(** X19.  An answer with status 200 whose body is no dict, under the same
    conditions: the type error of [check_response] is sent to the chat as
    a failure and the cursor is kept. *)
Theorem X19_wrong_shape_notified (w : world) (st : locals)
    (response : pyval) (remembered : string) :
  get_api_answer w (current_timestamp st) = Ok response ->
  is_dict response = false ->
  error_message st = Some remembered ->
  remembered
  <> "Сбой в работе программы: Тип ответа API не является словарем" ->
  bot_send_message w
    "Сбой в работе программы: Тип ответа API не является словарем" = None ->
  cycle repr w st
  = Outcome
      {| current_timestamp := current_timestamp st;
         error_message :=
           Some "Сбой в работе программы: Тип ответа API не является словарем"
      |}
      [Log ERROR "Сбой в работе программы: Тип ответа API не является словарем";
       BotSend "Сбой в работе программы: Тип ответа API не является словарем"
         true;
       Sleep RETRY_TIME]
      (Ok tt).
Proof.
  intros Hapi Hshape Hrem Hnew Hchat.
  apply (cycle_of_failure_sent repr w st
           (mk_exn TypeError (PStr "Тип ответа API не является словарем"))
           remembered); try assumption; [|reflexivity].
  apply (attempt_of_invalid w st response); [exact Hapi|].
  destruct response; try reflexivity. discriminate.
Qed.

End LoopProperties.

(** ** These properties on the sample worlds *)

(** The second example of the spec, right after startup. *)
Lemma X10_witness :
  cycle repr_plain (serving (http_200 body_empty) 5) (startup 7)
  = Outcome (after_success (PInt 1700000100))
      [Log DEBUG "Новые статусы отсутвуют"; Sleep RETRY_TIME] (Ok tt).
Proof.
  exact (X10_no_new_status repr_plain (serving (http_200 body_empty) 5)
           (startup 7)
           [("homeworks", PList []); ("current_date", PInt 1700000100)]
           (PInt 1700000100) eq_refl eq_refl eq_refl).
Defined.

(** One approved record, alone or followed by an older one. *)
Lemma X11_witness :
  cycle repr_plain (serving (http_200 body_two_records) 5) (startup 7)
  = cycle repr_plain (serving (http_200 body_hw1_approved) 5) (startup 7).
Proof.
  apply (X11_only_the_first_record repr_plain
           (serving (http_200 body_two_records) 5)
           (serving (http_200 body_hw1_approved) 5) (startup 7)
           [("homeworks",
             PList [PDict [("homework_name", PStr "hw1");
                           ("status", PStr "approved")];
                    PDict [("homework_name", PStr "hw0");
                           ("status", PStr "rejected")]]);
            ("current_date", PInt 1700000000)]
           [("homeworks",
             PList [PDict [("homework_name", PStr "hw1");
                           ("status", PStr "approved")]]);
            ("current_date", PInt 1700000000)]
           (PDict [("homework_name", PStr "hw1"); ("status", PStr "approved")])
           [PDict [("homework_name", PStr "hw0"); ("status", PStr "rejected")]]
           [] (PInt 1700000000));
    reflexivity.
Defined.

(** The first example of the spec with a chat that refuses the text. *)
Lemma X12_witness :
  cycle repr_plain (chat_down (serving (http_200 body_hw1_approved) 5))
    (startup 7)
  = Outcome (after_success (PInt 1700000000))
      [BotSend text_hw1_approved false;
       Log DEBUG "Ошибка при отправке сообщения Timed out";
       Sleep RETRY_TIME]
      (Ok tt).
Proof.
  exact (X12_status_cycle repr_plain
           (chat_down (serving (http_200 body_hw1_approved) 5)) (startup 7)
           [("homeworks",
             PList [PDict [("homework_name", PStr "hw1");
                           ("status", PStr "approved")]]);
            ("current_date", PInt 1700000000)]
           (PDict [("homework_name", PStr "hw1"); ("status", PStr "approved")])
           [] (PInt 1700000000) text_hw1_approved
           eq_refl eq_refl eq_refl eq_refl).
Defined.

(** An answer without its date, right after startup. *)
Lemma X13_witness :
  cycle repr_plain (serving (http_200 (PDict [("homeworks", PList [])])) 5)
    (startup 7)
  = Outcome (startup 7)
      [Log ERROR "Отсутствует поле current_date в ответе API";
       Sleep RETRY_TIME] (Ok tt).
Proof.
  destruct (X13_missing_response_field repr_plain
              (serving (http_200 (PDict [("homeworks", PList [])])) 5)
              (startup 7) [("homeworks", PList [])] eq_refl) as [_ Hdate].
  exact (Hdate (PList []) eq_refl eq_refl).
Defined.

(** An empty answer, then an HTTP 500 that the chat refuses. *)
Lemma X14_witness :
  (mk_exn TelegramError (PStr "Timed out") = unbound_error_message
   \/ exn_cls (mk_exn TelegramError (PStr "Timed out")) = TelegramError)
  /\ (error_message (startup 7) <> None ->
      exn_cls (mk_exn TelegramError (PStr "Timed out")) = TelegramError).
Proof.
  exact (X14_what_ends_the_loop repr_plain
           [serving (http_200 body_empty) 5; chat_down (serving http_500 6)]
           (startup 7) (mk_exn TelegramError (PStr "Timed out")) eq_refl).
Defined.

(** Three HTTP 500 in a row after a cycle that went through. *)
Lemma X15_witness :
  value (main_loop repr_plain (repeat (serving http_500 6) 3)
           (after_success (PInt 7))) = Ok tt
  /\ dispatched (trace (main_loop repr_plain (repeat (serving http_500 6) 3)
                          (after_success (PInt 7))))
     = [text_500]
  /\ final (main_loop repr_plain (repeat (serving http_500 6) 3)
              (after_success (PInt 7)))
     = after_500 (PInt 7).
Proof.
  apply (X15_repeated_failure_sent_once repr_plain (serving http_500 6)
           (after_success (PInt 7)) error_500 EmptyString 2);
    try reflexivity.
  simpl. discriminate.
Defined.

(** An empty answer and two HTTP 500. *)
Lemma X16_witness :
  slept (trace (main_loop repr_plain
                  [serving (http_200 body_empty) 5; serving http_500 6;
                   serving http_500 6] (startup 7)))
  = [600; 600; 600].
Proof.
  exact (X16_one_pause_per_cycle repr_plain
           [serving (http_200 body_empty) 5; serving http_500 6;
            serving http_500 6] (startup 7) eq_refl).
Defined.

(** The third example of the spec. *)
Lemma X18_witness :
  cycle repr_plain (serving http_500 6) (after_success (PInt 7))
  = Outcome (after_500 (PInt 7))
      [Log ERROR text_500; BotSend text_500 true; Sleep RETRY_TIME] (Ok tt).
Proof.
  apply (X18_http_status_notified repr_plain (serving http_500 6)
           (after_success (PInt 7)) http_500 EmptyString);
    try reflexivity; simpl; discriminate.
Defined.

(** A list in place of the answer. *)
Lemma X19_witness :
  cycle repr_plain (serving (http_200 (PList [])) 6) (after_success (PInt 7))
  = Outcome
      {| current_timestamp := PInt 7;
         error_message :=
           Some "Сбой в работе программы: Тип ответа API не является словарем"
      |}
      [Log ERROR "Сбой в работе программы: Тип ответа API не является словарем";
       BotSend "Сбой в работе программы: Тип ответа API не является словарем"
         true;
       Sleep RETRY_TIME]
      (Ok tt).
Proof.
  apply (X19_wrong_shape_notified repr_plain
           (serving (http_200 (PList [])) 6) (after_success (PInt 7))
           (PList []) EmptyString);
    try reflexivity.
  discriminate.
Defined.
